(** * Data fetcher gateway: the json, xml and rdf route handlers

    Shallow embedding of the three [POST] handlers of
    [src/app/api/fetchers/{json,xml,rdf}/route.js] (found in the repository
    as [src/unnamed/part_002]).

    Conventions of the embedding:
    - a value produced by [JSON.parse] is a [jvalue]; a property read that
      may be [undefined] is an [option jvalue] ([None] is [undefined]);
    - a JS string is represented by its UTF-8 bytes ([string] of [ascii]);
      concatenation and [Buffer.from(s)] then act on these bytes directly;
    - a number is represented by its canonical [ToString] text;
    - the libraries and the network ([fetch], [fast-xml-parser], [rdf-parse],
      [JSON.stringify], [response.json()]) are fields of a [world] record,
      so every theorem holds for every behaviour of them;
    - a handler runs in a writer monad with early return: the writer records
      the observable effects (outbound [fetch] calls, [console.warn], parser
      invocations), the early return is a [return errorResponse(...)] or an
      uncaught exception. *)

From Stdlib Require Import String Ascii List ZArith Bool Lia.
Import ListNotations.
Open Scope string_scope.
#[local] Set Warnings "-register-all".

(** ** JSON values and JS value semantics *)

Inductive jvalue : Type :=
| JNull
| JBool (b : bool)
| JNum (repr : string)
| JStr (s : string)
| JArr (items : list jvalue)
| JObj (fields : list (string * jvalue)).

(** [JSON.parse] keeps the last value of a duplicated key. *)
Fixpoint obj_get (fields : list (string * jvalue)) (k : string) : option jvalue :=
  match fields with
  | [] => None
  | (k', v) :: rest =>
      match obj_get rest k with
      | Some w => Some w
      | None => if String.eqb k k' then Some v else None
      end
  end.

(** [o.k] (and [o?.k]) for the property names the handlers read: none of
    them is a property of a prototype, so only an object's own fields
    answer. The handlers only use [o.k] where [o] is not nullish. *)
Definition get (o : option jvalue) (k : string) : option jvalue :=
  match o with
  | Some (JObj fields) => obj_get fields k
  | _ => None
  end.

(** Destructuring default [{ k = d } = o]: applies only to [undefined]. *)
Definition default (v : option jvalue) (d : jvalue) : option jvalue :=
  match v with
  | None => Some d
  | Some _ => v
  end.

(** JS truthiness ([!!v]). *)
Definition truthy (v : option jvalue) : bool :=
  match v with
  | None => false
  | Some JNull => false
  | Some (JBool b) => b
  | Some (JNum r) => negb (String.eqb r "0")
  | Some (JStr s) => negb (String.eqb s EmptyString)
  | Some (JArr _) => true
  | Some (JObj _) => true
  end.

(** [v === "lit"]. *)
Definition strict_eq_str (v : option jvalue) (lit : string) : bool :=
  match v with
  | Some (JStr s) => String.eqb s lit
  | _ => false
  end.

Definition has_key (fields : list (string * jvalue)) (k : string) : bool :=
  match obj_get fields k with Some _ => true | None => false end.

(** [ToString] of a parsed JSON value, [None] when it throws a TypeError:
    an object with an own (hence non-callable) [toString] field has no
    usable [toString], and [Object.prototype.valueOf] returns the object
    itself, so [ToPrimitive] fails. Arrays use [Array.prototype.join]. *)
Fixpoint to_str (v : jvalue) : option string :=
  match v with
  | JNull => Some "null"
  | JBool true => Some "true"
  | JBool false => Some "false"
  | JNum r => Some r
  | JStr s => Some s
  | JArr items =>
      let fix join (l : list jvalue) (first : bool) : option string :=
        match l with
        | [] => Some EmptyString
        | x :: rest =>
            let sx := match x with JNull => Some EmptyString | _ => to_str x end in
            match sx, join rest false with
            | Some a, Some b => Some ((if first then EmptyString else ",") ++ a ++ b)
            | _, _ => None
            end
        end in
      join items true
  | JObj fields => if has_key fields "toString" then None else Some "[object Object]"
  end.

(** [`${v}`] in a template literal. *)
Definition tmpl (v : option jvalue) : option string :=
  match v with
  | None => Some "undefined"
  | Some x => to_str x
  end.

(** ** Decimal rendering of naturals (array indices, status codes) *)

Definition digit (n : nat) : ascii := ascii_of_nat (48 + n).

Fixpoint nat_to_string_fuel (fuel n : nat) (acc : string) : string :=
  match fuel with
  | O => acc
  | S f =>
      let acc' := String (digit (n mod 10)) acc in
      if Nat.ltb n 10 then acc' else nat_to_string_fuel f (n / 10) acc'
  end.

Definition nat_to_string (n : nat) : string := nat_to_string_fuel (S n) n EmptyString.

Definition z_to_string (z : Z) : string :=
  if Z.ltb z 0 then "-" ++ nat_to_string (Z.to_nat (- z)) else nat_to_string (Z.to_nat z).

(** ** Plain JS objects used as header maps

    [fetchOptions.headers] is an ordinary object whose prototype is
    [Object.prototype]; its own string-keyed properties, in creation order. *)

Definition jsobj := list (string * jvalue).

Fixpoint own_get (k : string) (o : jsobj) : option jvalue :=
  match o with
  | [] => None
  | (k', v) :: rest => if String.eqb k k' then Some v else own_get k rest
  end.

(** CreateDataProperty: replaces an own property in place or appends one. *)
Fixpoint define_prop (k : string) (v : jvalue) (o : jsobj) : jsobj :=
  match o with
  | [] => [(k, v)]
  | (k', v') :: rest =>
      if String.eqb k k' then (k', v) :: rest else (k', v') :: define_prop k v rest
  end.

(** [o[k] = v] for a primitive [v] ([[Set]]): without an own ["__proto__"]
    the assignment reaches the [Object.prototype.__proto__] setter, which
    ignores a primitive value, so [o] is left unchanged. *)
Definition set_prop (k : string) (v : jvalue) (o : jsobj) : jsobj :=
  if String.eqb k "__proto__" then
    match own_get k o with
    | Some _ => define_prop k v o
    | None => o
    end
  else define_prop k v o.

Fixpoint string_chars (s : string) : list jvalue :=
  match s with
  | EmptyString => []
  | String c rest => JStr (String c EmptyString) :: string_chars rest
  end.

Fixpoint define_indexed (i : nat) (l : list jvalue) (o : jsobj) : jsobj :=
  match l with
  | [] => o
  | x :: rest => define_indexed (S i) rest (define_prop (nat_to_string i) x o)
  end.

(** Object spread [{ ...o, ...src }] (CopyDataProperties). *)
Definition spread_into (o : jsobj) (src : option jvalue) : jsobj :=
  match src with
  | Some (JObj fields) => fold_left (fun acc kv => define_prop (fst kv) (snd kv) acc) fields o
  | Some (JStr s) => define_indexed 0 (string_chars s) o
  | Some (JArr l) => define_indexed 0 l o
  | _ => o
  end.

(** ** String helpers: [toLowerCase] and [includes] *)

(** ASCII case mapping suffices for [includes('json')]: no non-ASCII
    character lowercases to one of [j], [s], [o], [n]. *)
Definition ascii_lower (a : ascii) : ascii :=
  let n := nat_of_ascii a in
  if andb (Nat.leb 65 n) (Nat.leb n 90) then ascii_of_nat (n + 32) else a.

Fixpoint lower (s : string) : string :=
  match s with
  | EmptyString => EmptyString
  | String c rest => String (ascii_lower c) (lower rest)
  end.

Fixpoint includes (sub s : string) : bool :=
  String.prefix sub s ||
  match s with
  | EmptyString => false
  | String _ rest => includes sub rest
  end.

(** ** [Buffer.from(s).toString("base64")] *)

Definition b64_char (n : nat) : ascii :=
  if Nat.ltb n 26 then ascii_of_nat (65 + n)
  else if Nat.ltb n 52 then ascii_of_nat (97 + (n - 26))
  else if Nat.ltb n 62 then ascii_of_nat (48 + (n - 52))
  else if Nat.eqb n 62 then "+"%char else "/"%char.

Fixpoint b64_bytes (l : list nat) : string :=
  match l with
  | [] => EmptyString
  | [b1] =>
      String (b64_char (b1 / 4)) (String (b64_char ((b1 mod 4) * 16))
        (String "=" (String "=" EmptyString)))
  | [b1; b2] =>
      String (b64_char (b1 / 4)) (String (b64_char ((b1 mod 4) * 16 + b2 / 16))
        (String (b64_char ((b2 mod 16) * 4)) (String "=" EmptyString)))
  | b1 :: b2 :: b3 :: rest =>
      String (b64_char (b1 / 4)) (String (b64_char ((b1 mod 4) * 16 + b2 / 16))
        (String (b64_char ((b2 mod 16) * 4 + b3 / 64)) (String (b64_char (b3 mod 64))
          (b64_bytes rest))))
  end.

Fixpoint bytes_of (s : string) : list nat :=
  match s with
  | EmptyString => []
  | String c rest => nat_of_ascii c :: bytes_of rest
  end.

Definition base64 (s : string) : string := b64_bytes (bytes_of s).



Example base64_user_pass : base64 "user:pass" = "dXNlcjpwYXNz".
Proof. reflexivity. Qed.

Example base64_user_colon : base64 "user:" = "dXNlcjo=".
Proof. reflexivity. Qed.

Example to_str_array : to_str (JArr [JStr "a"; JNull; JNum "1"]) = Some "a,,1".
Proof. reflexivity. Qed.

(** ** Responses, upstream results and observable effects *)

(** What the route returns: a [NextResponse.json] with its status, or an
    uncaught exception (Next.js then answers with its own error page). *)
Inductive response : Type :=
| Respond (status : Z) (body : jvalue)
| Crash (error : string).

(** [errorResponse(message, status, details)]: [details] is attached only
    when truthy. *)
Definition errorResponse (message : string) (status : Z) (details : jvalue) : response :=
  Respond status (JObj (app [("success", JBool false); ("error", JStr message)]
    (if truthy (Some details) then [("details", details)] else []))).

Definition successResponse (data : jvalue) : response :=
  Respond 200 (JObj [("success", JBool true); ("data", data)]).

Record fetch_options : Type := {
  fo_method : option jvalue;
  fo_headers : jsobj;
  fo_body : option string
}.

(** A [Response] of the external API: status, status text, its
    [content-type] header ([headers.get] gives [null] when absent) and the
    outcome of reading its body ([inr] carries the message of the error). *)
Record upstream : Type := {
  u_status : Z;
  u_statusText : string;
  u_content_type : option string;
  u_text : string + string
}.

Definition ok (u : upstream) : bool := (200 <=? u_status u)%Z && (u_status u <=? 299)%Z.

Inductive fetch_result : Type :=
| NetworkError (message : string)
| Received (u : upstream).

(** The [err] object of [XMLValidator.validate]. *)
Record xml_error : Type := {
  xe_code : string;
  xe_msg : string;
  xe_line : Z;
  xe_col : Z
}.

Definition xml_error_json (e : xml_error) : jvalue :=
  JObj [("code", JStr (xe_code e)); ("msg", JStr (xe_msg e));
        ("line", JNum (z_to_string (xe_line e))); ("col", JNum (z_to_string (xe_col e)))].

(** The quad stream of [rdfParser.parse]: data events, then exactly one
    terminal event, ['end'] or ['error'] (a Node stream emits nothing after
    either). *)
Inductive qstream : Type :=
| QEnd
| QError (message stack : string)
| QData (quad : jvalue) (rest : qstream).

(** The environment of the handlers: the network and the libraries, plus
    the module-level initialisation of the rdf route ([rdfParserInstance],
    [actualUsableArrayifyStream]). *)
Record world : Type := {
  fetch : option jvalue -> fetch_options -> fetch_result;
  json_stringify : jvalue -> string;
  response_json : string -> jvalue + string;
  xml_validate : string -> option xml_error;
  xml_parse : option jvalue -> string -> jvalue + string;
  rdf_parse : option jvalue -> option jvalue -> string -> qstream;
  rdf_parser_loaded : bool;
  arrayify_loaded : bool
}.

Inductive event : Type :=
| EvFetch (url : option jvalue) (opts : fetch_options)
| EvWarn (msg : string)
| EvXmlParse (options : option jvalue) (text : string)
| EvRdfParse (contentType baseIRI : option jvalue) (text : string).

(** ** The handler monad: effects log and early return *)

Definition M (A : Type) : Type := (list event * (response + A))%type.

Definition ret {A} (a : A) : M A := ([], inr a).
Definition stop {A} (r : response) : M A := ([], inl r).
Definition emit (e : event) : M unit := ([e], inr tt).

Definition bind {A B} (m : M A) (f : A -> M B) : M B :=
  match m with
  | (evs, inl r) => (evs, inl r)
  | (evs, inr a) => let (evs', x) := f a in (app evs evs', x)
  end.

Notation "x <- m ;; k" := (bind m (fun x => k))
  (at level 61, m at next level, right associativity).

Definition run (m : M response) : response * list event :=
  match m with
  | (evs, inl r) => (r, evs)
  | (evs, inr r) => (r, evs)
  end.

(** ** The request envelope *)

(** The body of the inbound request: [request.json()] throws, or yields a
    JSON value. *)
Inductive inbound : Type :=
| BadJson (message : string)
| Body (v : jvalue).

Record envelope : Type := {
  apiUrl : option jvalue;
  authentication : option jvalue;
  dataType : option jvalue;
  method : option jvalue;
  customHeaders : option jvalue;
  requestBody : option jvalue;
  rdfOptions : option jvalue;
  xmlParserOptions : option jvalue
}.

(** [const { apiUrl, authentication, dataType, method = "GET",
    headers: customHeaders = {}, body: requestBody, rdf: rdfOptions = {},
    xmlParserOptions = {} } = requestData;] *)
Definition destructure (rd : jvalue) : envelope :=
  let o := Some rd in
  {| apiUrl := get o "apiUrl";
     authentication := get o "authentication";
     dataType := get o "dataType";
     method := default (get o "method") (JStr "GET");
     customHeaders := default (get o "headers") (JObj []);
     requestBody := get o "body";
     rdfOptions := default (get o "rdf") (JObj []);
     xmlParserOptions := default (get o "xmlParserOptions") (JObj []) |}.

Inductive entry : Type := EJson | EXml | ERdf.

Definition entry_name (e : entry) : string :=
  match e with EJson => "json" | EXml => "xml" | ERdf => "rdf" end.

(** ** The handlers *)

Section Handlers.

Variable w : world.

(** Messages of the authentication block; the rdf route uses shorter ones. *)
Definition msg_auth_object (e : entry) : string :=
  match e with
  | ERdf => "Invalid 'authentication' object."
  | _ => "Invalid 'authentication' object. Missing 'type' or 'credentials'."
  end.

Definition msg_api_key (e : entry) : string :=
  match e with
  | ERdf => "Invalid 'apiKey' credentials."
  | _ => "Invalid 'apiKey' credentials. Missing 'key' or 'headerName'."
  end.

Definition msg_bearer (e : entry) : string :=
  match e with
  | ERdf => "Invalid 'bearerToken' credentials."
  | _ => "Invalid 'bearerToken' credentials. Missing 'token'."
  end.

Definition msg_basic (e : entry) : string :=
  match e with
  | ERdf => "Invalid 'basicAuth' credentials."
  | _ => "Invalid 'basicAuth' credentials. Missing 'username' or 'password'."
  end.

Definition dataType_message (e : entry) (got : string) : string :=
  "Invalid 'dataType'. Expected '" ++ entry_name e ++ "', got '" ++ got ++ "'.".

(** [catch (authError)] of the authentication block: the only exception
    it can see on parsed JSON is the TypeError of a failed [ToString]. *)
Definition auth_setup_error : response :=
  errorResponse "Failed to configure authentication." 500
    (JStr "Cannot convert object to primitive value").

(** "1. Input Validation", and for the rdf route the two checks of its
    module-level initialisation that follow it. *)
Definition validate_fields (e : entry) (env : envelope) : M unit :=
  if negb (truthy (apiUrl env)) then stop (errorResponse "Missing 'apiUrl' in request body." 400 JNull)
  else if negb (truthy (dataType env)) then stop (errorResponse "Missing 'dataType' in request body." 400 JNull)
  else if negb (strict_eq_str (dataType env) (entry_name e)) then
    match tmpl (dataType env) with
    | Some got => stop (errorResponse (dataType_message e got) 400 JNull)
    | None => stop (Crash "TypeError: Cannot convert object to primitive value")
    end
  else match e with
  | ERdf =>
      if negb (rdf_parser_loaded w) then stop (errorResponse "RDF parser instance not available." 500 JNull)
      else if negb (arrayify_loaded w) then
        stop (errorResponse "actualUsableArrayifyStream function not available." 500 JNull)
      else ret tt
  | _ => ret tt
  end.

(** "2. Authentication": [if (authentication) { ... switch (type) ... }]. *)
Definition authenticate (e : entry) (auth : option jvalue) (hdrs : jsobj) : M jsobj :=
  if negb (truthy auth) then ret hdrs else
  let type := get auth "type" in
  let credentials := get auth "credentials" in
  if negb (truthy type) || negb (truthy credentials) then
    stop (errorResponse (msg_auth_object e) 400 JNull)
  else if strict_eq_str type "apiKey" then
    let key := get credentials "key" in
    let headerName := get credentials "headerName" in
    if negb (truthy key) || negb (truthy headerName) then
      stop (errorResponse (msg_api_key e) 400 JNull)
    else
      let prefix := if truthy (get credentials "prefix") then get credentials "prefix"
                    else Some (JStr EmptyString) in
      match tmpl headerName, tmpl prefix, tmpl key with
      | Some hn, Some p, Some k => ret (set_prop hn (JStr (p ++ k)) hdrs)
      | _, _, _ => stop auth_setup_error
      end
  else if strict_eq_str type "bearerToken" then
    let token := get credentials "token" in
    if negb (truthy token) then stop (errorResponse (msg_bearer e) 400 JNull)
    else match tmpl token with
         | Some t => ret (set_prop "Authorization" (JStr ("Bearer " ++ t)) hdrs)
         | None => stop auth_setup_error
         end
  else if strict_eq_str type "basicAuth" then
    let username := get credentials "username" in
    let password := get credentials "password" in
    if negb (truthy username) || match password with None => true | Some _ => false end then
      stop (errorResponse (msg_basic e) 400 JNull)
    else match tmpl username, tmpl password with
         | Some u, Some p =>
             ret (set_prop "Authorization" (JStr ("Basic " ++ base64 (u ++ ":" ++ p))) hdrs)
         | _, _ => stop auth_setup_error
         end
  else match tmpl type with
       | Some t => stop (errorResponse ("Unsupported authentication type: '" ++ t ++ "'.") 400 JNull)
       | None => stop auth_setup_error
       end.

Definition is_body_verb (m : option jvalue) : bool :=
  strict_eq_str m "POST" || strict_eq_str m "PUT" || strict_eq_str m "PATCH".

Definition msg_body_xml : string :=
  "Request body must be a string for non-JSON content types, or if 'Content-Type' is not 'application/json'.".

Definition msg_body_rdf : string :=
  "Request body must be a string for non-JSON content types or if 'Content-Type' is not 'application/json'.".

Definition no_lower_case : response := Crash "TypeError: toLowerCase is not a function".

(** "Add body for methods that support it". The json route stringifies
    every non-string body; the xml route tests
    [ct && ct.toLowerCase().includes('json')], the rdf route
    [ct?.toLowerCase().includes('json')], with [ct] the ['Content-Type']
    entry of the outbound headers. *)
Definition attach_body (e : entry) (body meth : option jvalue) (hdrs : jsobj) : M (option string) :=
  if truthy body && is_body_verb meth then
    match body with
    | Some (JStr s) => ret (Some s)
    | Some v =>
        let ct := own_get "Content-Type" hdrs in
        match e with
        | EJson => ret (Some (json_stringify w v))
        | EXml =>
            if truthy ct then
              match ct with
              | Some (JStr c) =>
                  if includes "json" (lower c) then ret (Some (json_stringify w v))
                  else stop (errorResponse msg_body_xml 400 JNull)
              | _ => stop no_lower_case
              end
            else stop (errorResponse msg_body_xml 400 JNull)
        | ERdf =>
            match ct with
            | None | Some JNull => stop (errorResponse msg_body_rdf 400 JNull)
            | Some (JStr c) =>
                if includes "json" (lower c) then ret (Some (json_stringify w v))
                else stop (errorResponse msg_body_rdf 400 JNull)
            | Some _ => stop no_lower_case
            end
        end
    | None => ret None
    end
  else ret None.

Definition default_headers : jsobj := [("Content-Type", JStr "application/json")].

(** Validation, then [fetchOptions.headers]: the defaults, the caller's
    headers spread over them, then the authentication header. *)
Definition build_headers (e : entry) (env : envelope) : M jsobj :=
  _ <- validate_fields e env ;;
  authenticate e (authentication env) (spread_into default_headers (customHeaders env)).

(** Everything before [fetch(apiUrl, fetchOptions)]. *)
Definition prepare (e : entry) (req : inbound) : M (option jvalue * fetch_options * envelope) :=
  match req with
  | BadJson m => stop (errorResponse "Invalid JSON in request body." 400 (JStr m))
  | Body JNull => stop (Crash "TypeError: Cannot destructure 'requestData' as it is null.")
  | Body rd =>
      let env := destructure rd in
      hdrs <- build_headers e env ;;
      body <- attach_body e (requestBody env) (method env) hdrs ;;
      ret (apiUrl env, {| fo_method := method env; fo_headers := hdrs; fo_body := body |}, env)
  end.

(** [if (!externalApiResponse.ok) { ... }] *)
Definition upstream_failure (u : upstream) : response :=
  let errorBody := match u_text u with inl t => JStr t | inr _ => JNull end in
  let details := JObj [("originalStatus", JNum (z_to_string (u_status u)));
                       ("originalStatusText", JStr (u_statusText u));
                       ("originalBody", errorBody)] in
  if (u_status u =? 401)%Z || (u_status u =? 403)%Z then
    errorResponse "Authentication failed with external API." (u_status u) details
  else errorResponse "External API request failed." 502 details.

(** [arrayifyStream(quadStream)] raced with the ['error'] listener: the
    first terminal event settles the promise. *)
Fixpoint arrayify (s : qstream) : list jvalue + (string * string) :=
  match s with
  | QEnd => inl []
  | QError m st => inr (m, st)
  | QData q rest =>
      match arrayify rest with
      | inl l => inl (q :: l)
      | inr err => inr err
      end
  end.

(** [rdfOptions?.contentType || headers.get("content-type") || undefined] *)
Definition rdf_content_type (ro : option jvalue) (header : option string) : option jvalue :=
  let o := get ro "contentType" in
  if truthy o then o
  else match header with
       | Some h => if String.eqb h EmptyString then None else Some (JStr h)
       | None => None
       end.

Definition rdf_warning : string :=
  "Content-Type for RDF parsing is not explicitly set and not found in response headers. rdf-parse will attempt auto-detection.".

(** Reading and parsing the body of a successful response. *)
Definition parse_stage (e : entry) (env : envelope) (u : upstream) : M response :=
  match e with
  | EJson =>
      match u_text u with
      | inr m => stop (errorResponse "Failed to parse JSON response from external API." 422 (JStr m))
      | inl t =>
          match response_json w t with
          | inl v => ret (successResponse v)
          | inr m => stop (errorResponse "Failed to parse JSON response from external API." 422 (JStr m))
          end
      end
  | EXml =>
      match u_text u with
      | inr m => stop (errorResponse "Failed to read text response from external API for XML parsing." 500 (JStr m))
      | inl t =>
          match xml_validate w t with
          | Some err => stop (errorResponse "Failed to validate XML response: Malformed XML." 422 (xml_error_json err))
          | None =>
              _ <- emit (EvXmlParse (xmlParserOptions env) t) ;;
              match xml_parse w (xmlParserOptions env) t with
              | inl v => ret (successResponse v)
              | inr m => stop (errorResponse "Failed to parse XML response from external API." 422 (JStr m))
              end
          end
      end
  | ERdf =>
      match u_text u with
      | inr m => stop (errorResponse "Failed to read text response from external API for RDF parsing." 500 (JStr m))
      | inl t =>
          let ct := rdf_content_type (rdfOptions env) (u_content_type u) in
          _ <- (match ct with None => emit (EvWarn rdf_warning) | Some _ => ret tt end) ;;
          let base := get (rdfOptions env) "baseIRI" in
          _ <- emit (EvRdfParse ct base t) ;;
          match arrayify (rdf_parse w ct base t) with
          | inl quads => ret (successResponse (JArr quads))
          | inr (m, st) =>
              stop (errorResponse ("Failed to parse RDF response from external API: " ++ m) 422 (JStr st))
          end
      end
  end.

(** What follows [fetch]: its rejection, a non-ok status, or the parse. *)
Definition outcome (e : entry) (env : envelope) (res : fetch_result) : M response :=
  match res with
  | NetworkError m => stop (errorResponse "External API request failed (network error)." 502 (JStr m))
  | Received u => if negb (ok u) then stop (upstream_failure u) else parse_stage e env u
  end.

(** "3. Make the HTTP request to the external API" and what follows. *)
Definition dispatch (p : option jvalue * fetch_options * envelope) (e : entry) : M response :=
  let '(url, opts, env) := p in
  _ <- emit (EvFetch url opts) ;;
  outcome e env (fetch w url opts).

(** [export async function POST(request)] of the route for entry [e]. *)
Definition POST (e : entry) (req : inbound) : response * list event :=
  run (p <- prepare e req ;; dispatch p e).

End Handlers.

(** ** Definitions stated from the spec, to compare the handlers with *)

(** The validation failures the spec lists, first to last. *)
Inductive violation : Type :=
| VBadJson (message : string)
| VNoApiUrl
| VNoDataType
| VMismatch (dt : jvalue)
| VAuthObject
| VApiKey
| VBearer
| VBasic.

(** The first violated field of an inbound request, in the spec's
    precedence; "missing" is JS falsiness except for the basicAuth
    password, which is checked for presence. The authentication checks
    apply when [authentication] is truthy. *)
Definition first_violation (e : entry) (req : inbound) : option violation :=
  match req with
  | BadJson m => Some (VBadJson m)
  | Body rd =>
      let field := get (Some rd) in
      if negb (truthy (field "apiUrl")) then Some VNoApiUrl
      else if negb (truthy (field "dataType")) then Some VNoDataType
      else if negb (strict_eq_str (field "dataType") (entry_name e)) then
        match field "dataType" with Some dt => Some (VMismatch dt) | None => None end
      else
        let a := field "authentication" in
        if negb (truthy a) then None
        else
          let ty := get a "type" in
          let cr := get a "credentials" in
          if negb (truthy ty && truthy cr) then Some VAuthObject
          else if strict_eq_str ty "apiKey" then
            if truthy (get cr "key") && truthy (get cr "headerName") then None else Some VApiKey
          else if strict_eq_str ty "bearerToken" then
            if truthy (get cr "token") then None else Some VBearer
          else if strict_eq_str ty "basicAuth" then
            if truthy (get cr "username") && match get cr "password" with Some _ => true | None => false end then None else Some VBasic
          else None
  end.

(** The message the handler of entry [e] gives for each failure. *)
Definition violation_message (e : entry) (v : violation) : option string :=
  match v with
  | VBadJson _ => Some "Invalid JSON in request body."
  | VNoApiUrl => Some "Missing 'apiUrl' in request body."
  | VNoDataType => Some "Missing 'dataType' in request body."
  | VMismatch dt => option_map (dataType_message e) (to_str dt)
  | VAuthObject => Some (msg_auth_object e)
  | VApiKey => Some (msg_api_key e)
  | VBearer => Some (msg_bearer e)
  | VBasic => Some (msg_basic e)
  end.

Definition violation_details (v : violation) : jvalue :=
  match v with VBadJson m => JStr m | _ => JNull end.

(** All the records of a quad stream, in order, and its error if any. *)
Fixpoint stream_quads (s : qstream) : list jvalue :=
  match s with
  | QEnd | QError _ _ => []
  | QData q rest => q :: stream_quads rest
  end.

Fixpoint stream_error (s : qstream) : option (string * string) :=
  match s with
  | QEnd => None
  | QError m st => Some (m, st)
  | QData _ rest => stream_error rest
  end.

(** An inbound object without its [body] field. *)
Definition remove_field (k : string) (fields : list (string * jvalue)) : list (string * jvalue) :=
  filter (fun kv => negb (String.eqb (fst kv) k)) fields.

(** The outbound call is the first effect of a run, with body [b]. *)
Definition fetched_with (run : response * list event) (b : option string) : Prop :=
  exists url opts rest, snd run = EvFetch url opts :: rest /\ fo_body opts = b.

(** An inbound request for entry [e] with a basicAuth spec whose
    password is the empty string, and no other optional field. *)
Definition basic_empty_password_request (e : entry) (a u : string) : list (string * jvalue) :=
  [("apiUrl", JStr a); ("dataType", JStr (entry_name e));
   ("authentication", JObj [("type", JStr "basicAuth");
      ("credentials", JObj [("username", JStr u); ("password", JStr EmptyString)])])].

(** ** A concrete world for examples

    An upstream that answers [status] with body [text] and, when given,
    a [content-type] header; [JSON.stringify] and the parsers are simple
    stand-ins. *)

Definition test_upstream (status : Z) (ct : option string) (text : string) : upstream :=
  {| u_status := status; u_statusText := "Status"; u_content_type := ct; u_text := inl text |}.

Definition test_world (status : Z) (ct : option string) (text : string)
  (rdf_loaded : bool) (stream : qstream) : world :=
  {| fetch := fun _ _ => Received (test_upstream status ct text);
     json_stringify := fun _ => "{...}";
     response_json := fun t => inl (JStr t);
     xml_validate := fun t =>
       if String.eqb t "<a><b></a>" then
         Some {| xe_code := "InvalidTag";
                 xe_msg := "Expected closing tag 'b' (opened in line 1, col 4) instead of closing tag 'a'.";
                 xe_line := 1; xe_col := 8 |}
       else None;
     xml_parse := fun _ t => inl (JStr t);
     rdf_parse := fun _ _ _ => stream;
     rdf_parser_loaded := rdf_loaded;
     arrayify_loaded := true |}.

Definition w_ok : world := test_world 200 None "{}" true QEnd.

Definition url : jvalue := JStr "https://api.example.com/data".

Definition w_rdf_unloaded : world := test_world 200 None "{}" false QEnd.

(** An rdf request whose authentication object lacks [credentials]. *)
Definition req_auth_no_credentials : inbound :=
  Body (JObj [("apiUrl", url); ("dataType", JStr "rdf");
              ("authentication", JObj [("type", JStr "apiKey")])]).

(** A json request whose apiKey goes to a header named [__proto__]. *)
Definition req_apiKey_proto : inbound :=
  Body (JObj [("apiUrl", url); ("dataType", JStr "json");
              ("authentication", JObj [("type", JStr "apiKey");
                 ("credentials", JObj [("key", JStr "secret"); ("headerName", JStr "__proto__")])])]).

(** The header a well-formed authentication spec asks for, read off the
    spec: apiKey: [headerName] and [prefix + key] ([prefix] a string or
    absent); bearerToken: [Authorization] and ["Bearer " + token];
    basicAuth: [Authorization] and ["Basic " + base64(username:password)].
    Keys, header names, tokens and usernames are non-empty strings. *)
Definition expected_auth_header (auth : jvalue) : option (string * string) :=
  let nonempty (s : string) := negb (String.eqb s EmptyString) in
  match get (Some auth) "type", get (Some auth) "credentials" with
  | Some (JStr ty), Some (JObj cr) =>
      if String.eqb ty "apiKey" then
        match obj_get cr "key", obj_get cr "headerName", obj_get cr "prefix" with
        | Some (JStr k), Some (JStr hn), None =>
            if nonempty k && nonempty hn then Some (hn, k) else None
        | Some (JStr k), Some (JStr hn), Some (JStr p) =>
            if nonempty k && nonempty hn then Some (hn, p ++ k) else None
        | _, _, _ => None
        end
      else if String.eqb ty "bearerToken" then
        match obj_get cr "token" with
        | Some (JStr t) => if nonempty t then Some ("Authorization", "Bearer " ++ t) else None
        | _ => None
        end
      else if String.eqb ty "basicAuth" then
        match obj_get cr "username", obj_get cr "password" with
        | Some (JStr u), Some (JStr p) =>
            if nonempty u then Some ("Authorization", "Basic " ++ base64 (u ++ ":" ++ p)) else None
        | _, _ => None
        end
      else None
  | _, _ => None
  end.

(** A json request posting an object body under an XML Content-Type. *)
Definition req_json_object_body : inbound :=
  Body (JObj [("apiUrl", url); ("dataType", JStr "json"); ("method", JStr "POST");
              ("headers", JObj [("Content-Type", JStr "text/xml")]);
              ("body", JObj [("a", JNum "1")])]).

(** An xml request posting an object body under the default headers. *)
Definition xml_object_body_fields : list (string * jvalue) :=
  [("apiUrl", url); ("dataType", JStr "xml"); ("method", JStr "POST");
   ("body", JObj [("a", JNum "1")])].

(** An rdf request whose content-type override is the empty string. *)
Definition rdf_empty_override_fields : list (string * jvalue) :=
  [("apiUrl", url); ("dataType", JStr "rdf"); ("rdf", JObj [("contentType", JStr EmptyString)])].

Definition req_rdf_empty_override : inbound := Body (JObj rdf_empty_override_fields).

(** A plain rdf request, and a quad stream that fails after one record. *)
Definition req_rdf_plain : inbound := Body (JObj [("apiUrl", url); ("dataType", JStr "rdf")]).

Definition partial_stream : qstream :=
  QData (JStr "<s> <p> <o> .") (QError "Unexpected end of input" "at line 2").

(** A plain xml request, and an upstream body missing a closing tag. *)
Definition req_xml_plain : inbound := Body (JObj [("apiUrl", url); ("dataType", JStr "xml")]).

Definition unclosed_xml : string := "<a><b></a>".

(** A json request with a dataType of xml, and a GET request with a body. *)
Definition mismatch_fields : list (string * jvalue) := [("apiUrl", url); ("dataType", JStr "xml")].

Definition get_with_body_fields : list (string * jvalue) :=
  [("apiUrl", url); ("dataType", JStr "json"); ("method", JStr "GET");
   ("body", JObj [("a", JNum "1")])].

(** The outbound call of a plain GET request. *)
Definition plain_get_options : fetch_options :=
  {| fo_method := Some (JStr "GET"); fo_headers := default_headers; fo_body := None |}.

(** A plain json request; a world whose network is down; a world whose
    parsers reject every body. *)
Definition req_json_plain : inbound := Body (JObj [("apiUrl", url); ("dataType", JStr "json")]).


Definition w_parse_fail : world :=
  {| fetch := fetch w_ok;
     json_stringify := json_stringify w_ok;
     response_json := fun _ => inr "Unexpected token";
     xml_validate := fun _ => None;
     xml_parse := fun _ _ => inr "Invalid character";
     rdf_parse := rdf_parse w_ok;
     rdf_parser_loaded := true;
     arrayify_loaded := true |}.


(** A request authenticating with a type the handlers do not know, and one
    with a bearer token. *)
Definition oauth2_fields : list (string * jvalue) :=
  [("apiUrl", url); ("dataType", JStr "xml");
   ("authentication", JObj [("type", JStr "oauth2"); ("credentials", JObj [("token", JStr "t")])])].

Definition bearer_auth : jvalue :=
  JObj [("type", JStr "bearerToken"); ("credentials", JObj [("token", JStr "abc")])].

Definition req_bearer : inbound :=
  Body (JObj [("apiUrl", url); ("dataType", JStr "json");
              ("headers", JObj [("Authorization", JStr "Basic old")]);
              ("authentication", bearer_auth)]).

Example missing_apiUrl_json :
  POST w_ok EJson (Body (JObj [("dataType", JStr "json")]))
  = (errorResponse "Missing 'apiUrl' in request body." 400 JNull, []).
Proof. reflexivity. Qed.

Example dataType_xml_on_json :
  fst (POST w_ok EJson (Body (JObj [("apiUrl", url); ("dataType", JStr "xml")])))
  = Respond 400 (JObj [("success", JBool false);
                       ("error", JStr "Invalid 'dataType'. Expected 'json', got 'xml'.")]).
Proof. reflexivity. Qed.

Example basic_auth_user_pass :
  exists opts,
    snd (POST w_ok EJson (Body (JObj [("apiUrl", url); ("dataType", JStr "json");
      ("authentication", JObj [("type", JStr "basicAuth");
         ("credentials", JObj [("username", JStr "user"); ("password", JStr "pass")])])])))
    = [EvFetch (Some url) opts]
    /\ own_get "Authorization" (fo_headers opts) = Some (JStr "Basic dXNlcjpwYXNz").
Proof. eexists; split; reflexivity. Qed.

Example upstream_500_json :
  fst (POST (test_world 500 None "oops" true QEnd) EJson
         (Body (JObj [("apiUrl", url); ("dataType", JStr "json")])))
  = errorResponse "External API request failed." 502
      (JObj [("originalStatus", JNum "500"); ("originalStatusText", JStr "Status");
             ("originalBody", JStr "oops")]).
Proof. reflexivity. Qed.

(** ** Structure of a handler run *)

Arguments get : simpl never.

Section Structure.

Variable w : world.

Ltac split_matches :=
  repeat (simpl; match goal with
                 | |- context [if ?b then _ else _] => destruct b
                 | |- context [match ?x with _ => _ end] => destruct x
                 end).

Lemma bind_silent {A B} (m : M A) (f : A -> M B) :
  fst m = [] -> (forall a, fst (f a) = []) -> fst (bind m f) = [].
Proof.
  destruct m as [l [r | a]]; simpl; intros -> Hf; [reflexivity |].
  specialize (Hf a). destruct (f a) as [l' x]; simpl in *; subst; reflexivity.
Qed.

Lemma bind_snd_inr {A B} (m : M A) (f : A -> M B) (b : B) :
  fst m = [] -> snd (bind m f) = inr b -> exists a, snd m = inr a /\ snd (f a) = inr b.
Proof.
  destruct m as [l [r | a]]; simpl; intros -> H; [discriminate |].
  exists a; split; [reflexivity |]. destruct (f a); exact H.
Qed.

Lemma jvalue_eq_null (v : jvalue) : {v = JNull} + {v <> JNull}.
Proof. destruct v; [left; reflexivity | right; discriminate ..]. Defined.

Lemma validate_fields_silent e env : fst (validate_fields w e env) = [].
Proof. unfold validate_fields; split_matches; reflexivity. Qed.

Lemma authenticate_silent e a h : fst (authenticate e a h) = [].
Proof. unfold authenticate; split_matches; reflexivity. Qed.

Lemma attach_body_silent e b m h : fst (attach_body w e b m h) = [].
Proof. unfold attach_body; split_matches; reflexivity. Qed.

Lemma build_headers_silent e env : fst (build_headers w e env) = [].
Proof.
  apply bind_silent; [apply validate_fields_silent | intros; apply authenticate_silent].
Qed.

Lemma prepare_body e rd :
  rd <> JNull ->
  prepare w e (Body rd) =
  (hdrs <- build_headers w e (destructure rd) ;;
   body <- attach_body w e (requestBody (destructure rd)) (method (destructure rd)) hdrs ;;
   ret (apiUrl (destructure rd),
        {| fo_method := method (destructure rd); fo_headers := hdrs; fo_body := body |},
        destructure rd)).
Proof. destruct rd; [congruence | reflexivity ..]. Qed.

Lemma prepare_silent e req : fst (prepare w e req) = [].
Proof.
  destruct req as [m | rd]; [reflexivity |].
  destruct (jvalue_eq_null rd) as [-> | Hn]; [reflexivity |].
  rewrite prepare_body by exact Hn.
  apply bind_silent; [apply build_headers_silent | intros].
  apply bind_silent; [apply attach_body_silent | reflexivity].
Qed.

Lemma POST_shape e req :
  (exists r, snd (prepare w e req) = inl r /\ POST w e req = (r, []))
  \/ (exists url opts env, snd (prepare w e req) = inr (url, opts, env) /\
        POST w e req = (fst (run (outcome w e env (fetch w url opts))),
                        EvFetch url opts :: snd (run (outcome w e env (fetch w url opts))))).
Proof.
  unfold POST. pose proof (prepare_silent e req) as Hs.
  destruct (prepare w e req) as [l [r | [[url opts] env]]]; simpl in Hs |- *; subst.
  - left; exists r; split; reflexivity.
  - right; exists url, opts, env; split; [reflexivity |].
    simpl. destruct (outcome w e env (fetch w url opts)) as [l2 [r2 | r2]]; reflexivity.
Qed.

Lemma outcome_no_fetch e env res url opts :
  ~ In (EvFetch url opts) (snd (run (outcome w e env res))).
Proof.
  unfold outcome, parse_stage.
  destruct res as [m | u]; [simpl; tauto |].
  destruct (negb (ok u)); [simpl; tauto |].
  destruct e; simpl; destruct (u_text u) as [t | m]; simpl.
  - destruct (response_json w t); simpl; tauto.
  - tauto.
  - destruct (xml_validate w t); simpl; [tauto |].
    destruct (xml_parse w (xmlParserOptions env) t); simpl;
      intros [H | H]; discriminate || exact H.
  - tauto.
  - destruct (rdf_content_type (rdfOptions env) (u_content_type u)); simpl;
      destruct (arrayify _) as [q | [m st]]; simpl; intros H;
      repeat (destruct H as [H | H]; [discriminate |]); exact H.
  - tauto.
Qed.

Lemma POST_fetch_inv e req url opts :
  In (EvFetch url opts) (snd (POST w e req)) ->
  exists env, snd (prepare w e req) = inr (url, opts, env) /\
    POST w e req = (fst (run (outcome w e env (fetch w url opts))),
                    EvFetch url opts :: snd (run (outcome w e env (fetch w url opts)))).
Proof.
  intros H.
  destruct (POST_shape e req) as [[r [Hp HP]] | [url' [opts' [env [Hp HP]]]]];
    rewrite HP in H; simpl in H; [contradiction |].
  destruct H as [H | H].
  - injection H as <- <-. exists env; split; assumption.
  - exfalso; eapply outcome_no_fetch; exact H.
Qed.

Lemma prepare_inr e req url opts env :
  snd (prepare w e req) = inr (url, opts, env) ->
  exists rd, req = Body rd /\ env = destructure rd /\ url = apiUrl env /\
    fo_method opts = method env /\
    snd (build_headers w e env) = inr (fo_headers opts) /\
    snd (attach_body w e (requestBody env) (method env) (fo_headers opts)) = inr (fo_body opts).
Proof.
  intros H. destruct req as [m | rd]; [discriminate |].
  destruct (jvalue_eq_null rd) as [-> | Hn]; [discriminate |].
  rewrite prepare_body in H by exact Hn.
  apply bind_snd_inr in H as [hdrs [Hh H]]; [| apply build_headers_silent].
  apply bind_snd_inr in H as [body [Hb H]]; [| apply attach_body_silent].
  simpl in H. injection H as <- <- <-.
  exists rd; repeat split; assumption.
Qed.

End Structure.

Lemma bind_snd_inl {A B} (m : M A) (f : A -> M B) (r : response) :
  snd m = inl r -> snd (bind m f) = inl r.
Proof. destruct m as [l [r' | a]]; simpl; intros H; [congruence | discriminate]. Qed.

Lemma POST_stops_at_headers w e rd r :
  rd <> JNull -> snd (build_headers w e (destructure rd)) = inl r ->
  POST w e (Body rd) = (r, []).
Proof.
  intros Hn Hr. pose proof (build_headers_silent w e (destructure rd)) as Hs.
  unfold POST. rewrite prepare_body by exact Hn.
  destruct (build_headers w e (destructure rd)) as [l [r' | h]]; simpl in Hs, Hr |- *;
    [| discriminate].
  subst. injection Hr as ->. reflexivity.
Qed.

(** Decide, one atom at a time, the conditions of a hypothesis [H]. *)
Ltac case_hyp H :=
  repeat (simpl in H;
          first
          [ discriminate H
          | match type of H with
            | context [truthy ?X] =>
                let E := fresh "E" in destruct (truthy X) eqn:E; rewrite ?E in H
            | context [strict_eq_str ?X ?l] =>
                let E := fresh "E" in destruct (strict_eq_str X l) eqn:E; rewrite ?E in H
            | context [match ?X with Some _ => _ | None => _ end] =>
                let E := fresh "E" in destruct X eqn:E; rewrite ?E in H
            end ]).

(** Rewrite the goal with the decided conditions. *)
Ltac use_eqs :=
  repeat (simpl; match goal with E : ?b = _ |- context [?b] => rewrite E end); simpl.

(** ** The claims *)

(** C1 (amended). On every entry point, an inbound JSON object whose
    [apiUrl] is truthy and whose [dataType] is truthy but differs from the
    entry point's format (and converts to a string [s]) is answered with
    status 400 and the error "Invalid 'dataType'. Expected '<format>', got
    '<s>'.", and the handler makes no outbound call (it records no effect
    at all). *)
Theorem dataType_mismatch_rejected w e fields dt s :
  truthy (obj_get fields "apiUrl") = true ->
  obj_get fields "dataType" = Some dt ->
  truthy (Some dt) = true ->
  strict_eq_str (Some dt) (entry_name e) = false ->
  to_str dt = Some s ->
  POST w e (Body (JObj fields)) = (errorResponse (dataType_message e s) 400 JNull, []).
Proof.
  intros Ha Hd Ht Hne Hs.
  apply POST_stops_at_headers; [discriminate |].
  unfold build_headers, validate_fields. simpl.
  change (get (Some (JObj fields)) "apiUrl") with (obj_get fields "apiUrl").
  change (get (Some (JObj fields)) "dataType") with (obj_get fields "dataType").
  rewrite Ha, Hd, Ht, Hne. simpl. rewrite Hs. reflexivity.
Qed.

(** C1 counterexample. A request to the json entry point that carries
    [dataType: "xml"] but no [apiUrl] is rejected for the missing [apiUrl]:
    its error names neither format. *)
Lemma dataType_mismatch_without_apiUrl :
  ~ (exists msg, fst (POST w_ok EJson (Body (JObj [("dataType", JStr "xml")])))
                 = errorResponse msg 400 JNull
                 /\ includes "json" msg = true /\ includes "xml" msg = true).
Proof.
  intros [msg [H [_ Hx]]].
  assert (E : fst (POST w_ok EJson (Body (JObj [("dataType", JStr "xml")])))
              = errorResponse "Missing 'apiUrl' in request body." 400 JNull) by reflexivity.
  rewrite E in H. simpl in H.
  injection H as Hm. subst msg. vm_compute in Hx. discriminate.
Qed.

(** C2 (amended). For every inbound request other than the JSON literal
    [null], and on the rdf entry point when its parsing libraries are
    loaded, the first failure in the order malformed JSON, falsy [apiUrl],
    falsy [dataType], [dataType] not the entry point's format, then (only
    when [authentication] is truthy) falsy [type] or [credentials], then
    apiKey: falsy [key] or [headerName]; bearerToken: falsy [token];
    basicAuth: falsy [username] or undefined [password], is answered with
    status 400 and that check's message, and no outbound call is made. *)
Theorem validation_precedence w e req v msg :
  req <> Body JNull ->
  (e = ERdf -> rdf_parser_loaded w = true /\ arrayify_loaded w = true) ->
  first_violation e req = Some v ->
  violation_message e v = Some msg ->
  POST w e req = (errorResponse msg 400 (violation_details v), []).
Proof.
  intros Hnn Hrdf Hv Hm.
  destruct req as [m | rd].
  - simpl in Hv. injection Hv as <-. simpl in Hm. injection Hm as <-. reflexivity.
  - assert (Hn : rd <> JNull) by congruence.
    apply POST_stops_at_headers; [exact Hn |].
    unfold first_violation in Hv.
    unfold build_headers, validate_fields, authenticate, bind, stop, ret.
    destruct e; [| | destruct (Hrdf eq_refl) as [-> ->]]; simpl;
      case_hyp Hv; injection Hv as <-; simpl in Hm; use_eqs;
      try (match goal with
           | |- context [to_str ?X] => let T := fresh "T" in destruct (to_str X) eqn:T; rewrite ?T in Hm
           end; simpl in Hm; try discriminate Hm);
      injection Hm as <-; reflexivity.
Qed.

(** C2 counterexample. On the rdf entry point whose parser library failed
    to load, a request whose first violated field is the missing
    [credentials] is answered 500, not 400. *)
Lemma rdf_unloaded_reports_500 :
  first_violation ERdf req_auth_no_credentials = Some VAuthObject /\
  POST w_rdf_unloaded ERdf req_auth_no_credentials
  = (errorResponse "RDF parser instance not available." 500 JNull, []).
Proof. split; reflexivity. Qed.

(** C3 (code_bug). An apiKey spec with [headerName: "__proto__"] reaches
    the outbound call without its header: the assignment
    [fetchOptions.headers["__proto__"] = "secret"] hits the prototype
    setter, and the headers are only the default [Content-Type]. *)
Theorem apiKey_proto_header_dropped :
  exists opts,
    snd (POST w_ok EJson req_apiKey_proto) = [EvFetch (Some url) opts] /\
    own_get "__proto__" (fo_headers opts) = None /\
    fo_headers opts = default_headers.
Proof. eexists; split; [reflexivity | split; reflexivity]. Qed.

Lemma own_get_define k v o : own_get k (define_prop k v o) = Some v.
Proof.
  induction o as [| [k' v'] o IH]; simpl.
  - rewrite String.eqb_refl; reflexivity.
  - destruct (String.eqb k k') eqn:E; simpl.
    + rewrite E; reflexivity.
    + rewrite E; exact IH.
Qed.

Lemma set_prop_not_proto k v o : k <> "__proto__" -> set_prop k v o = define_prop k v o.
Proof.
  intros Hk. unfold set_prop. destruct (String.eqb k "__proto__") eqn:E; [| reflexivity].
  apply String.eqb_eq in E. contradiction.
Qed.

Lemma authenticate_expected e auth hdrs hn v :
  expected_auth_header auth = Some (hn, v) ->
  authenticate e (Some auth) hdrs = ([], inr (set_prop hn (JStr v) hdrs)).
Proof.
  unfold expected_auth_header, authenticate. intros H.
  destruct (get (Some auth) "type") as [[| | | ty | |] |] eqn:Ety; try discriminate H.
  destruct (get (Some auth) "credentials") as [[| | | | | cr] |] eqn:Ecr; try discriminate H.
  assert (Ht : truthy (Some auth) = true) by (destruct auth; try reflexivity; discriminate Ety).
  rewrite Ht. simpl negb. cbv iota beta zeta.
  unfold strict_eq_str.
  change (get (Some (JObj cr))) with (obj_get cr).
  destruct (String.eqb ty "apiKey") eqn:E1.
  { apply String.eqb_eq in E1; subst ty. simpl.
    destruct (obj_get cr "key") as [[| | | k | |] |]; try discriminate H;
    destruct (obj_get cr "headerName") as [[| | | h | |] |]; try discriminate H;
    destruct (obj_get cr "prefix") as [[| | | p | |] |]; try discriminate H;
    simpl in H |- *;
    destruct (String.eqb k EmptyString), (String.eqb h EmptyString); simpl in H |- *;
      try discriminate H; injection H as <- <-; try reflexivity.
    destruct (String.eqb p EmptyString) eqn:Ep; [apply String.eqb_eq in Ep; subst p |]; reflexivity. }
  destruct (String.eqb ty "bearerToken") eqn:E2.
  { apply String.eqb_eq in E2; subst ty. simpl.
    destruct (obj_get cr "token") as [[| | | t | |] |]; try discriminate H.
    simpl in H |- *; destruct (String.eqb t EmptyString); simpl in H |- *; [discriminate H |].
    injection H as <- <-; reflexivity. }
  destruct (String.eqb ty "basicAuth") eqn:E3; [| discriminate H].
  apply String.eqb_eq in E3; subst ty. simpl.
  destruct (obj_get cr "username") as [[| | | u | |] |]; try discriminate H.
  destruct (obj_get cr "password") as [[| | | p | |] |]; try discriminate H.
  simpl in H |- *; destruct (String.eqb u EmptyString); simpl in H |- *; [discriminate H |].
  injection H as <- <-; reflexivity.
Qed.

(** The rest of C3: for every other header name, the outbound call made
    for a request with a well-formed authentication spec carries exactly
    the header the spec asks for. *)
Lemma auth_header_reaches_fetch w e rd auth url opts hn v :
  In (EvFetch url opts) (snd (POST w e (Body rd))) ->
  get (Some rd) "authentication" = Some auth ->
  expected_auth_header auth = Some (hn, v) ->
  hn <> "__proto__" ->
  own_get hn (fo_headers opts) = Some (JStr v).
Proof.
  intros Hin Ha Hx Hp.
  destruct (POST_fetch_inv w e (Body rd) url opts Hin) as [env [Hprep _]].
  destruct (prepare_inr w e _ _ _ _ Hprep) as [rd' [Hr [-> [_ [_ [Hh _]]]]]].
  injection Hr as <-.
  unfold build_headers in Hh.
  apply bind_snd_inr in Hh as [[] [_ Hh]]; [| apply validate_fields_silent].
  simpl in Hh. rewrite Ha, (authenticate_expected e auth _ hn v Hx) in Hh.
  injection Hh as <-. rewrite set_prop_not_proto by exact Hp. apply own_get_define.
Qed.

(** C4. When the outbound call completes with a non-success status, the
    gateway answers with the upstream status if it is 401 or 403 and with
    502 otherwise; the body has [success: false] and [details] carrying
    [originalStatus], [originalStatusText] and [originalBody] (the
    upstream body text, or [null] when it cannot be read). *)
Theorem upstream_non_success w e req url opts u :
  In (EvFetch url opts) (snd (POST w e req)) ->
  fetch w url opts = Received u ->
  ok u = false ->
  fst (POST w e req) =
  Respond (if (u_status u =? 401)%Z || (u_status u =? 403)%Z then u_status u else 502)
    (JObj [("success", JBool false);
           ("error", JStr (if (u_status u =? 401)%Z || (u_status u =? 403)%Z
                           then "Authentication failed with external API."
                           else "External API request failed."));
           ("details", JObj [("originalStatus", JNum (z_to_string (u_status u)));
                             ("originalStatusText", JStr (u_statusText u));
                             ("originalBody", match u_text u with inl t => JStr t | inr _ => JNull end)])]).
Proof.
  intros Hin Hf Hok.
  destruct (POST_fetch_inv w e req url opts Hin) as [env [_ ->]].
  rewrite Hf. simpl. rewrite Hok. simpl.
  unfold upstream_failure. destruct (_ || _); reflexivity.
Qed.

Lemma prepare_after_body w e rd hdrs b :
  rd <> JNull ->
  snd (build_headers w e (destructure rd)) = inr hdrs ->
  snd (attach_body w e (requestBody (destructure rd)) (method (destructure rd)) hdrs) = inr b ->
  snd (prepare w e (Body rd)) =
  inr (apiUrl (destructure rd),
       {| fo_method := method (destructure rd); fo_headers := hdrs; fo_body := b |},
       destructure rd).
Proof.
  intros Hn Hh Hb.
  pose proof (build_headers_silent w e (destructure rd)) as Hs1.
  pose proof (attach_body_silent w e (requestBody (destructure rd)) (method (destructure rd)) hdrs) as Hs2.
  rewrite prepare_body by exact Hn. remember (destructure rd) as env.
  destruct (build_headers w e env) as [l1 [r1 | h1]];
    simpl in Hs1, Hh; [discriminate |]; subst l1; injection Hh as ->.
  simpl.
  destruct (attach_body w e (requestBody env) (method env) hdrs)
    as [l2 [r2 | b2]]; simpl in Hs2, Hb; [discriminate |]; subst l2; injection Hb as ->.
  reflexivity.
Qed.

Lemma POST_after_body w e rd hdrs b :
  rd <> JNull ->
  snd (build_headers w e (destructure rd)) = inr hdrs ->
  snd (attach_body w e (requestBody (destructure rd)) (method (destructure rd)) hdrs) = inr b ->
  exists rest, snd (POST w e (Body rd)) =
    EvFetch (apiUrl (destructure rd))
      {| fo_method := method (destructure rd); fo_headers := hdrs; fo_body := b |} :: rest.
Proof.
  intros Hn Hh Hb. pose proof (prepare_after_body w e rd hdrs b Hn Hh Hb) as Hp.
  destruct (POST_shape w e (Body rd)) as [[r [Hp' _]] | [u [o [env [Hp' HP]]]]];
    rewrite Hp in Hp'; [discriminate |].
  injection Hp' as <- <- <-. rewrite HP. eexists; reflexivity.
Qed.

Lemma POST_body_rejected w e rd hdrs r :
  rd <> JNull ->
  snd (build_headers w e (destructure rd)) = inr hdrs ->
  snd (attach_body w e (requestBody (destructure rd)) (method (destructure rd)) hdrs) = inl r ->
  POST w e (Body rd) = (r, []).
Proof.
  intros Hn Hh Hb.
  pose proof (build_headers_silent w e (destructure rd)) as Hs1.
  pose proof (attach_body_silent w e (requestBody (destructure rd)) (method (destructure rd)) hdrs) as Hs2.
  unfold POST. rewrite prepare_body by exact Hn. remember (destructure rd) as env.
  destruct (build_headers w e env) as [l1 [r1 | h1]];
    simpl in Hs1, Hh; [discriminate |]; subst l1; injection Hh as ->.
  simpl.
  destruct (attach_body w e (requestBody env) (method env) hdrs)
    as [l2 [r2 | b2]]; simpl in Hs2, Hb; [| discriminate]; subst l2.
  injection Hb as ->. reflexivity.
Qed.

(** C5 (amended). When the validation and authentication steps pass with
    outbound headers [hdrs], the body is truthy and the method is POST,
    PUT or PATCH: a string body is passed to the outbound call verbatim
    (every entry point); the json entry point serializes any other body
    with [JSON.stringify], whatever the Content-Type; the xml and rdf
    entry points serialize it when [hdrs]'s ['Content-Type'] is a string
    containing "json" (in any case), and reject it with 400 before any
    outbound call when that header is absent, [null], or a string
    without "json". *)
Theorem body_handling w e fields hdrs :
  let env := destructure (JObj fields) in
  snd (build_headers w e env) = inr hdrs ->
  truthy (requestBody env) = true ->
  is_body_verb (method env) = true ->
  (forall s, requestBody env = Some (JStr s) ->
     fetched_with (POST w e (Body (JObj fields))) (Some s)) /\
  (forall v, requestBody env = Some v -> (forall s, v <> JStr s) -> e = EJson ->
     fetched_with (POST w e (Body (JObj fields))) (Some (json_stringify w v))) /\
  (forall v c, requestBody env = Some v -> (forall s, v <> JStr s) -> e <> EJson ->
     own_get "Content-Type" hdrs = Some (JStr c) -> includes "json" (lower c) = true ->
     fetched_with (POST w e (Body (JObj fields))) (Some (json_stringify w v))) /\
  (forall v, requestBody env = Some v -> (forall s, v <> JStr s) -> e <> EJson ->
     (own_get "Content-Type" hdrs = None \/ own_get "Content-Type" hdrs = Some JNull \/
      exists c, own_get "Content-Type" hdrs = Some (JStr c) /\ includes "json" (lower c) = false) ->
     POST w e (Body (JObj fields)) =
     (errorResponse (match e with EXml => msg_body_xml | _ => msg_body_rdf end) 400 JNull, [])).
Proof.
  intros env Hh Ht Hv. unfold env in *. clear env.
  assert (Hn : JObj fields <> JNull) by discriminate.
  assert (Hab : forall b, attach_body w e (requestBody (destructure (JObj fields)))
                            (method (destructure (JObj fields))) hdrs =
          match requestBody (destructure (JObj fields)) with
          | Some (JStr s) => ret (Some s)
          | Some v => b v
          | None => ret None
          end -> True) by trivial.
  clear Hab.
  split; [| split; [| split]].
  - intros s Hs.
    destruct (POST_after_body w e (JObj fields) hdrs (Some s) Hn Hh) as [rest Hr].
    + unfold attach_body. rewrite Ht, Hv, Hs. reflexivity.
    + do 3 eexists; split; [exact Hr | reflexivity].
  - intros v Hs Hns ->.
    destruct (POST_after_body w EJson (JObj fields) hdrs (Some (json_stringify w v)) Hn Hh) as [rest Hr].
    + unfold attach_body. rewrite Ht, Hv, Hs. simpl.
      destruct v; try reflexivity. exfalso; eapply Hns; reflexivity.
    + do 3 eexists; split; [exact Hr | reflexivity].
  - intros v c Hs Hns He Hc Hj.
    destruct (POST_after_body w e (JObj fields) hdrs (Some (json_stringify w v)) Hn Hh) as [rest Hr].
    + unfold attach_body. rewrite Ht, Hv, Hs. simpl. rewrite Hc, Hj.
      destruct c as [| a c]; [discriminate Hj |].
      destruct e; [contradiction | |]; simpl;
        (destruct v; try reflexivity; exfalso; eapply Hns; reflexivity).
    + do 3 eexists; split; [exact Hr | reflexivity].
  - intros v Hs Hns He Hc.
    eapply POST_body_rejected; [exact Hn | exact Hh |].
    unfold attach_body. rewrite Ht, Hv, Hs. simpl.
    destruct v; try (exfalso; eapply Hns; reflexivity);
      (destruct Hc as [Hc | [Hc | [c [Hc Hj]]]]; rewrite Hc;
       destruct e; try contradiction; simpl; try rewrite Hj;
       repeat match goal with |- context [if ?b then _ else _] => destruct b end;
       reflexivity).
Qed.

Lemma body_handling_witness :
  snd (build_headers w_ok EXml (destructure (JObj xml_object_body_fields))) = inr default_headers /\
  truthy (requestBody (destructure (JObj xml_object_body_fields))) = true /\
  is_body_verb (method (destructure (JObj xml_object_body_fields))) = true /\
  fetched_with (POST w_ok EXml (Body (JObj xml_object_body_fields)))
    (Some (json_stringify w_ok (JObj [("a", JNum "1")]))).
Proof.
  split; [reflexivity | split; [reflexivity | split; [reflexivity |]]].
  destruct (body_handling w_ok EXml xml_object_body_fields default_headers
              eq_refl eq_refl eq_refl) as [_ [_ [H _]]].
  apply (H (JObj [("a", JNum "1")]) "application/json");
    [reflexivity | discriminate | discriminate | reflexivity | reflexivity].
Defined.

(** C5, counterexample. The json entry point serializes an object body
    although the outbound Content-Type is "text/xml", instead of rejecting
    the request. *)
Lemma json_body_stringified_regardless :
  exists opts rest,
    snd (POST w_ok EJson req_json_object_body) = EvFetch (Some url) opts :: rest /\
    own_get "Content-Type" (fo_headers opts) = Some (JStr "text/xml") /\
    fo_body opts = Some (json_stringify w_ok (JObj [("a", JNum "1")])).
Proof. do 2 eexists; split; [reflexivity | split; reflexivity]. Qed.

(** C6 (amended). For an rdf request whose outbound call succeeds with
    body text [t], the content type passed to the parser is the [rdf]
    [contentType] override when it is truthy, else the upstream
    [content-type] header when it is a non-empty string; a warning is
    emitted, and the parser auto-detects, exactly when the override is
    falsy (absent, empty, null, ...) and the header is absent or empty. *)
Theorem rdf_content_type_resolution w rd url opts u t :
  In (EvFetch url opts) (snd (POST w ERdf (Body rd))) ->
  fetch w url opts = Received u -> ok u = true -> u_text u = inl t ->
  let ro := rdfOptions (destructure rd) in
  let o := get ro "contentType" in
  let base := get ro "baseIRI" in
  (truthy o = true ->
     snd (POST w ERdf (Body rd)) = [EvFetch url opts; EvRdfParse o base t]) /\
  (forall h, truthy o = false -> u_content_type u = Some h -> h <> EmptyString ->
     snd (POST w ERdf (Body rd)) = [EvFetch url opts; EvRdfParse (Some (JStr h)) base t]) /\
  (truthy o = false -> (u_content_type u = None \/ u_content_type u = Some EmptyString) ->
     snd (POST w ERdf (Body rd)) =
     [EvFetch url opts; EvWarn rdf_warning; EvRdfParse None base t]).
Proof.
  intros Hin Hf Hok Ht.
  destruct (POST_fetch_inv w ERdf (Body rd) url opts Hin) as [env [Hp HP]].
  destruct (prepare_inr w ERdf (Body rd) url opts env Hp) as [rd' [Hrd [Henv _]]].
  injection Hrd as <-. rewrite <- Henv. intros ro o base.
  rewrite HP, Hf. unfold outcome. rewrite Hok. simpl. rewrite Ht. simpl.
  unfold rdf_content_type. fold ro. fold o. fold base.
  split; [| split].
  - intros Ho. rewrite Ho. destruct o as [c |]; [| discriminate Ho].
    simpl. destruct (arrayify (rdf_parse w (Some c) base t)) as [q | [m st]]; reflexivity.
  - intros h Ho Hh Hne. rewrite Ho, Hh.
    apply String.eqb_neq in Hne. rewrite Hne. simpl.
    destruct (arrayify _) as [q | [m st]]; reflexivity.
  - intros Ho Hh. rewrite Ho.
    destruct Hh as [-> | ->]; simpl;
      destruct (arrayify _) as [q | [m st]]; reflexivity.
Qed.

Lemma rdf_content_type_resolution_witness :
  In (EvFetch (Some url) {| fo_method := Some (JStr "GET"); fo_headers := default_headers;
                            fo_body := None |})
     (snd (POST (test_world 200 (Some "text/turtle") "x" true QEnd) ERdf
             (Body (JObj [("apiUrl", url); ("dataType", JStr "rdf")])))) /\
  snd (POST (test_world 200 (Some "text/turtle") "x" true QEnd) ERdf
         (Body (JObj [("apiUrl", url); ("dataType", JStr "rdf")]))) =
  [EvFetch (Some url) {| fo_method := Some (JStr "GET"); fo_headers := default_headers;
                         fo_body := None |};
   EvRdfParse (Some (JStr "text/turtle")) None "x"].
Proof.
  split; [simpl; left; reflexivity |].
  refine (proj1 (proj2 (rdf_content_type_resolution
            (test_world 200 (Some "text/turtle") "x" true QEnd)
            (JObj [("apiUrl", url); ("dataType", JStr "rdf")]) (Some url)
            {| fo_method := Some (JStr "GET"); fo_headers := default_headers; fo_body := None |}
            (test_upstream 200 (Some "text/turtle") "x") "x" _ eq_refl eq_refl eq_refl))
          "text/turtle" eq_refl eq_refl _).
  - simpl; left; reflexivity.
  - discriminate.
Defined.

(** C6, counterexample. An empty-string override is present but falsy:
    it is skipped, and with no upstream header the warning is emitted. *)
Lemma rdf_empty_override_warns :
  get (rdfOptions (destructure (JObj rdf_empty_override_fields))) "contentType"
    = Some (JStr EmptyString) /\
  In (EvWarn rdf_warning) (snd (POST (test_world 200 None "x" true QEnd) ERdf req_rdf_empty_override)).
Proof. split; [reflexivity | simpl; right; left; reflexivity]. Qed.

Lemma arrayify_stream s :
  arrayify s = match stream_error s with
               | None => inl (stream_quads s)
               | Some err => inr err
               end.
Proof.
  induction s as [| m st | q rest IH]; simpl; [reflexivity | reflexivity |].
  rewrite IH. destruct (stream_error rest); reflexivity.
Qed.

Lemma bind_snd_inl_inv {A B} (m : M A) (f : A -> M B) (r : response) :
  snd (bind m f) = inl r -> snd m = inl r \/ exists a, snd m = inr a /\ snd (f a) = inl r.
Proof.
  destruct m as [l [r' | a]]; simpl; intros H; [left; congruence |].
  right; exists a; split; [reflexivity |]. destruct (f a); exact H.
Qed.

(** Every early stop before the outbound call is an error or a crash. *)

Ltac stop_cases :=
  repeat match goal with
         | |- context [if ?b then _ else _] => destruct b
         | |- context [match ?x with _ => _ end] => destruct x
         end;
  simpl; intros H; (discriminate H || (injection H as <-; discriminate)).

Lemma validate_fields_stop w e env r d :
  snd (validate_fields w e env) = inl r -> r <> successResponse d.
Proof. unfold validate_fields; stop_cases. Qed.

Lemma authenticate_stop e a h r d :
  snd (authenticate e a h) = inl r -> r <> successResponse d.
Proof. unfold authenticate; stop_cases. Qed.

Lemma attach_body_stop w e b m h r d :
  snd (attach_body w e b m h) = inl r -> r <> successResponse d.
Proof. unfold attach_body; stop_cases. Qed.

Lemma prepare_stop w e req r d :
  snd (prepare w e req) = inl r -> r <> successResponse d.
Proof.
  destruct req as [m | rd]; [simpl; intros H; injection H as <-; discriminate |].
  destruct (jvalue_eq_null rd) as [-> | Hn]; [simpl; intros H; injection H as <-; discriminate |].
  rewrite prepare_body by exact Hn. intros H.
  apply bind_snd_inl_inv in H as [H | [hdrs [_ H]]].
  - apply bind_snd_inl_inv in H as [H | [u [_ H]]];
      [eapply validate_fields_stop; exact H | eapply authenticate_stop; exact H].
  - apply bind_snd_inl_inv in H as [H | [b [_ H]]]; [eapply attach_body_stop; exact H |].
    discriminate H.
Qed.

(** What the rdf route answers once the parser has been called. *)
Lemma outcome_rdf w env res :
  (forall ct base t, In (EvRdfParse ct base t) (snd (run (outcome w ERdf env res))) ->
     fst (run (outcome w ERdf env res)) =
     match arrayify (rdf_parse w ct base t) with
     | inl q => successResponse (JArr q)
     | inr (m, st) =>
         errorResponse ("Failed to parse RDF response from external API: " ++ m) 422 (JStr st)
     end) /\
  (forall d, fst (run (outcome w ERdf env res)) = successResponse d ->
     exists ct base t q, In (EvRdfParse ct base t) (snd (run (outcome w ERdf env res))) /\
       arrayify (rdf_parse w ct base t) = inl q /\ d = JArr q).
Proof.
  unfold outcome.
  destruct res as [m | u].
  { split; [simpl; tauto | simpl; intros d H; discriminate H]. }
  destruct (negb (ok u)).
  { split; [simpl; tauto |]. simpl. unfold upstream_failure.
    intros d; destruct (_ || _); discriminate. }
  simpl. destruct (u_text u) as [t | m]; simpl.
  2: { split; [tauto | intros d H; discriminate H]. }
  remember (rdf_content_type (rdfOptions env) (u_content_type u)) as ct eqn:Hct.
  remember (get (rdfOptions env) "baseIRI") as base eqn:Hb.
  destruct (arrayify (rdf_parse w ct base t)) as [q | [m st]] eqn:A;
    destruct ct as [c |]; simpl; rewrite ?A; simpl; split;
    try (intros d H; discriminate H);
    try (intros ct' base' t' H; simpl in H;
         repeat (destruct H as [H | H]; [try discriminate H; injection H as <- <- <-;
                                         rewrite A; reflexivity |]);
         contradiction);
    (intros d H; injection H as <-; do 4 eexists;
     split; [simpl; auto | split; [exact A | reflexivity]]).
Qed.

(** C7. On the rdf entry point, once the parser has been called on [t]:
    if its quad stream raises an error, after any number of records,
    the answer is the single 422 parse failure carrying that error; and
    a success answer carries exactly the full, ordered list of records of
    a stream that ended without error. *)
Theorem rdf_stream_no_partial w req :
  (forall ct base t m st,
     In (EvRdfParse ct base t) (snd (POST w ERdf req)) ->
     stream_error (rdf_parse w ct base t) = Some (m, st) ->
     fst (POST w ERdf req) =
     errorResponse ("Failed to parse RDF response from external API: " ++ m) 422 (JStr st)) /\
  (forall d, fst (POST w ERdf req) = successResponse d ->
     exists ct base t, In (EvRdfParse ct base t) (snd (POST w ERdf req)) /\
       stream_error (rdf_parse w ct base t) = None /\
       d = JArr (stream_quads (rdf_parse w ct base t))).
Proof.
  destruct (POST_shape w ERdf req) as [[r [Hp HP]] | [url' [opts [env [Hp HP]]]]];
    rewrite HP; simpl.
  - split; [tauto |]. intros d H. exfalso; eapply prepare_stop; [exact Hp | exact H].
  - destruct (outcome_rdf w env (fetch w url' opts)) as [H1 H2]. split.
    + intros ct base t m st [H | H] He; [discriminate H |].
      rewrite (H1 ct base t H), arrayify_stream, He. reflexivity.
    + intros d H. destruct (H2 d H) as [ct [base [t [q [Hin [A ->]]]]]].
      exists ct, base, t. split; [right; exact Hin |].
      rewrite arrayify_stream in A.
      destruct (stream_error (rdf_parse w ct base t)); [discriminate A |].
      injection A as <-. split; reflexivity.
Qed.

Lemma rdf_stream_no_partial_witness :
  In (EvRdfParse (Some (JStr "text/turtle")) None "x")
     (snd (POST (test_world 200 (Some "text/turtle") "x" true partial_stream) ERdf req_rdf_plain)) /\
  stream_error partial_stream = Some ("Unexpected end of input", "at line 2") /\
  fst (POST (test_world 200 (Some "text/turtle") "x" true partial_stream) ERdf req_rdf_plain) =
  errorResponse ("Failed to parse RDF response from external API: " ++ "Unexpected end of input") 422
    (JStr "at line 2").
Proof.
  split; [simpl; right; left; reflexivity | split; [reflexivity |]].
  apply (proj1 (rdf_stream_no_partial (test_world 200 (Some "text/turtle") "x" true partial_stream)
                  req_rdf_plain) (Some (JStr "text/turtle")) None "x").
  - simpl; right; left; reflexivity.
  - reflexivity.
Defined.

(** C8. On the xml entry point, once the outbound call succeeds with body
    text [t], the body is validated first: when the validator reports an
    error, the answer is 422 with the validator's diagnostic (its [code],
    [msg], [line] and [col]) and the handler records no parse; the full
    parse with the caller's [xmlParserOptions] is run only when the
    validation succeeds. *)
Theorem xml_validated_before_parse w rd url opts u t :
  In (EvFetch url opts) (snd (POST w EXml (Body rd))) ->
  fetch w url opts = Received u -> ok u = true -> u_text u = inl t ->
  (forall err, xml_validate w t = Some err ->
     POST w EXml (Body rd) =
     (errorResponse "Failed to validate XML response: Malformed XML." 422 (xml_error_json err),
      [EvFetch url opts])) /\
  (xml_validate w t = None ->
     In (EvXmlParse (xmlParserOptions (destructure rd)) t) (snd (POST w EXml (Body rd)))).
Proof.
  intros Hin Hf Hok Ht.
  destruct (POST_fetch_inv w EXml (Body rd) url opts Hin) as [env [Hp HP]].
  destruct (prepare_inr w EXml (Body rd) url opts env Hp) as [rd' [Hrd [Henv _]]].
  injection Hrd as <-. rewrite <- Henv, HP, Hf.
  unfold outcome. rewrite Hok. simpl. rewrite Ht. simpl. split.
  - intros err He. rewrite He. reflexivity.
  - intros He. rewrite He. simpl.
    destruct (xml_parse w (xmlParserOptions env) t); simpl; auto.
Qed.

Lemma xml_validated_before_parse_witness :
  In (EvFetch (Some url) {| fo_method := Some (JStr "GET"); fo_headers := default_headers;
                            fo_body := None |})
     (snd (POST (test_world 200 None unclosed_xml true QEnd) EXml req_xml_plain)) /\
  POST (test_world 200 None unclosed_xml true QEnd) EXml req_xml_plain =
  (errorResponse "Failed to validate XML response: Malformed XML." 422
     (JObj [("code", JStr "InvalidTag");
            ("msg", JStr "Expected closing tag 'b' (opened in line 1, col 4) instead of closing tag 'a'.");
            ("line", JNum "1"); ("col", JNum "8")]),
   [EvFetch (Some url) {| fo_method := Some (JStr "GET"); fo_headers := default_headers;
                          fo_body := None |}]).
Proof.
  split; [simpl; left; reflexivity |].
  refine (proj1 (xml_validated_before_parse (test_world 200 None unclosed_xml true QEnd)
            (JObj [("apiUrl", url); ("dataType", JStr "xml")]) (Some url)
            {| fo_method := Some (JStr "GET"); fo_headers := default_headers; fo_body := None |}
            (test_upstream 200 None unclosed_xml) unclosed_xml _ eq_refl eq_refl eq_refl) _ eq_refl).
  simpl; left; reflexivity.
Defined.

(** C9. On every entry point (with the rdf parser libraries loaded for the
    rdf one), a basicAuth spec with a non-empty username and the empty
    password passes validation: the outbound call is made, with the
    [Authorization] header "Basic " followed by the base64 encoding of
    the username and a colon. *)
Theorem basic_auth_empty_password w e a u :
  a <> EmptyString -> u <> EmptyString ->
  (e = ERdf -> rdf_parser_loaded w = true /\ arrayify_loaded w = true) ->
  exists opts rest,
    snd (POST w e (Body (JObj (basic_empty_password_request e a u)))) =
      EvFetch (Some (JStr a)) opts :: rest /\
    own_get "Authorization" (fo_headers opts) = Some (JStr ("Basic " ++ base64 (u ++ ":"))).
Proof.
  intros Ha Hu Hl.
  set (rd := JObj (basic_empty_password_request e a u)).
  set (hdrs := set_prop "Authorization" (JStr ("Basic " ++ base64 (u ++ ":" ++ EmptyString)))
                 default_headers).
  assert (Hv : validate_fields w e (destructure rd) = ([], inr tt)).
  { unfold validate_fields.
    change (apiUrl (destructure rd)) with (Some (JStr a)).
    change (dataType (destructure rd)) with (Some (JStr (entry_name e))).
    apply String.eqb_neq in Ha. simpl. rewrite Ha. simpl.
    rewrite String.eqb_refl. destruct (entry_name e) eqn:En; [destruct e; discriminate En |].
    simpl. destruct e; try reflexivity.
    destruct (Hl eq_refl) as [-> ->]. reflexivity. }
  assert (Hx : expected_auth_header
                 (JObj [("type", JStr "basicAuth");
                        ("credentials", JObj [("username", JStr u); ("password", JStr EmptyString)])])
               = Some ("Authorization", "Basic " ++ base64 (u ++ ":" ++ EmptyString))).
  { apply String.eqb_neq in Hu. unfold expected_auth_header. simpl. rewrite Hu. reflexivity. }
  assert (Hh : snd (build_headers w e (destructure rd)) = inr hdrs).
  { unfold build_headers. rewrite Hv. simpl.
    change (authentication (destructure rd)) with
      (Some (JObj [("type", JStr "basicAuth");
                   ("credentials", JObj [("username", JStr u); ("password", JStr EmptyString)])])).
    rewrite (authenticate_expected e _ _ _ _ Hx). reflexivity. }
  assert (Hb : snd (attach_body w e (requestBody (destructure rd)) (method (destructure rd)) hdrs)
               = inr None) by reflexivity.
  destruct (POST_after_body w e rd hdrs None ltac:(discriminate) Hh Hb) as [rest Hr].
  do 2 eexists; split; [exact Hr |]. simpl fo_headers. unfold hdrs.
  rewrite set_prop_not_proto by discriminate. rewrite own_get_define.
  reflexivity.
Qed.

Lemma basic_auth_empty_password_witness :
  "https://api.example.com/data" <> EmptyString /\ "user" <> EmptyString /\
  exists opts rest,
    snd (POST w_ok ERdf (Body (JObj (basic_empty_password_request ERdf
                                       "https://api.example.com/data" "user")))) =
      EvFetch (Some (JStr "https://api.example.com/data")) opts :: rest /\
    own_get "Authorization" (fo_headers opts) = Some (JStr ("Basic " ++ base64 ("user" ++ ":"))).
Proof.
  split; [discriminate | split; [discriminate |]].
  apply (basic_auth_empty_password w_ok ERdf "https://api.example.com/data" "user");
    [discriminate | discriminate | intros _; split; reflexivity].
Defined.

Lemma obj_get_remove_other fields k :
  k <> "body" -> obj_get (remove_field "body" fields) k = obj_get fields k.
Proof.
  intros Hk. induction fields as [| [k' v] rest IH]; [reflexivity |].
  unfold remove_field in *. simpl.
  destruct (String.eqb k' "body") eqn:E; simpl; rewrite IH; [| reflexivity].
  apply String.eqb_eq in E; subst k'.
  destruct (obj_get rest k); [reflexivity |].
  apply String.eqb_neq in Hk; rewrite Hk; reflexivity.
Qed.

Lemma obj_get_remove_body fields : obj_get (remove_field "body" fields) "body" = None.
Proof.
  induction fields as [| [k' v] rest IH]; [reflexivity |].
  unfold remove_field in *. cbn [filter fst].
  destruct (String.eqb k' "body") eqn:E; cbn [negb]; [exact IH |].
  cbn [obj_get]. rewrite IH. rewrite String.eqb_sym, E. reflexivity.
Qed.

Lemma build_headers_env w e env1 env2 :
  apiUrl env1 = apiUrl env2 -> dataType env1 = dataType env2 ->
  authentication env1 = authentication env2 -> customHeaders env1 = customHeaders env2 ->
  build_headers w e env1 = build_headers w e env2.
Proof.
  intros H1 H2 H3 H4. unfold build_headers, validate_fields.
  rewrite H1, H2, H3, H4. reflexivity.
Qed.

Lemma outcome_env w e env1 env2 res :
  rdfOptions env1 = rdfOptions env2 -> xmlParserOptions env1 = xmlParserOptions env2 ->
  outcome w e env1 res = outcome w e env2 res.
Proof. intros H1 H2. unfold outcome, parse_stage. rewrite H1, H2. reflexivity. Qed.

Lemma is_body_verb_spec m :
  is_body_verb m = true <->
  m = Some (JStr "POST") \/ m = Some (JStr "PUT") \/ m = Some (JStr "PATCH").
Proof.
  unfold is_body_verb, strict_eq_str.
  destruct m as [[| | | s | |] |]; simpl;
    try (split; [discriminate | intros [H | [H | H]]; discriminate H]).
  rewrite !Bool.orb_true_iff, !String.eqb_eq.
  split; [intros [[H | H] | H]; subst; auto | intros [H | [H | H]]; injection H as ->; auto].
Qed.

(** An outbound call carries a body only when the inbound body is truthy
    and the method is exactly POST, PUT or PATCH. *)
Lemma fetch_body_attached w e req url opts :
  In (EvFetch url opts) (snd (POST w e req)) -> fo_body opts <> None ->
  exists rd, req = Body rd /\ truthy (requestBody (destructure rd)) = true /\
    is_body_verb (method (destructure rd)) = true.
Proof.
  intros Hin Hb.
  destruct (POST_fetch_inv w e req url opts Hin) as [env [Hp _]].
  destruct (prepare_inr w e req url opts env Hp) as [rd [-> [-> [_ [_ [_ Ha]]]]]].
  exists rd. split; [reflexivity |].
  unfold attach_body in Ha.
  destruct (truthy (requestBody (destructure rd)) && is_body_verb (method (destructure rd))) eqn:E.
  - apply andb_true_iff in E. exact E.
  - injection Ha as Ha. symmetry in Ha. contradiction.
Qed.

(** Two inbound objects that agree on every field but the body, and whose
    bodies are both dropped, get the same run. *)
Lemma POST_without_body w e rd1 rd2 :
  rd1 <> JNull -> rd2 <> JNull ->
  apiUrl (destructure rd1) = apiUrl (destructure rd2) ->
  dataType (destructure rd1) = dataType (destructure rd2) ->
  authentication (destructure rd1) = authentication (destructure rd2) ->
  method (destructure rd1) = method (destructure rd2) ->
  customHeaders (destructure rd1) = customHeaders (destructure rd2) ->
  rdfOptions (destructure rd1) = rdfOptions (destructure rd2) ->
  xmlParserOptions (destructure rd1) = xmlParserOptions (destructure rd2) ->
  (forall h, attach_body w e (requestBody (destructure rd1)) (method (destructure rd1)) h = ret None) ->
  (forall h, attach_body w e (requestBody (destructure rd2)) (method (destructure rd2)) h = ret None) ->
  POST w e (Body rd1) = POST w e (Body rd2).
Proof.
  intros N1 N2. unfold POST. rewrite !prepare_body by assumption.
  generalize (destructure rd1) as env1. generalize (destructure rd2) as env2.
  intros env2 env1 H1 H2 H3 H4 H5 H6 H7 A1 A2.
  rewrite (build_headers_env w e env1 env2 H1 H2 H3 H5).
  destruct (build_headers w e env2) as [l [r | h]]; [reflexivity |].
  cbn [bind]. rewrite A1, A2. cbn [bind ret dispatch]. rewrite H1, H4.
  rewrite (outcome_env w e env1 env2 _ H6 H7). reflexivity.
Qed.

(** C10. On every entry point, an outbound call carries a body only when
    the inbound [body] is truthy and [method] is exactly "POST", "PUT"
    or "PATCH". Otherwise (any other method, such as "GET" or "DELETE",
    or a falsy body, such as the empty string) the body is dropped
    without an error: the run is the one of the same request without its
    [body] field, and every outbound call it makes has no body. *)
Theorem body_only_for_body_verbs w e fields :
  let env := destructure (JObj fields) in
  let body_verb := method env = Some (JStr "POST") \/ method env = Some (JStr "PUT") \/
                   method env = Some (JStr "PATCH") in
  (forall url opts, In (EvFetch url opts) (snd (POST w e (Body (JObj fields)))) ->
     fo_body opts <> None -> truthy (requestBody env) = true /\ body_verb) /\
  (truthy (requestBody env) = false \/ ~ body_verb ->
     POST w e (Body (JObj fields)) = POST w e (Body (JObj (remove_field "body" fields))) /\
     forall url opts, In (EvFetch url opts) (snd (POST w e (Body (JObj fields)))) ->
       fo_body opts = None).
Proof.
  intros env body_verb.
  assert (Hi : forall url opts, In (EvFetch url opts) (snd (POST w e (Body (JObj fields)))) ->
                 fo_body opts <> None -> truthy (requestBody env) = true /\ body_verb).
  { intros url' opts Hin Hb.
    destruct (fetch_body_attached w e _ url' opts Hin Hb) as [rd [Hr [Ht Hv]]].
    injection Hr as <-. split; [exact Ht | apply is_body_verb_spec; exact Hv]. }
  split; [exact Hi |]. intros Hc.
  assert (Hc' : truthy (requestBody env) && is_body_verb (method env) = false).
  { destruct Hc as [Hc | Hc]; [rewrite Hc; reflexivity |].
    destruct (is_body_verb (method env)) eqn:E; [| apply andb_false_r].
    exfalso; apply Hc, is_body_verb_spec, E. }
  split.
  - assert (Hf : forall k, k <> "body" ->
              get (Some (JObj fields)) k = get (Some (JObj (remove_field "body" fields))) k)
      by (intros k Hk; symmetry; exact (obj_get_remove_other fields k Hk)).
    apply POST_without_body; try discriminate;
      try (cbn [destructure apiUrl dataType authentication method customHeaders
                rdfOptions xmlParserOptions];
           rewrite Hf by discriminate; reflexivity).
    + intros h. unfold attach_body. fold env. rewrite Hc'. reflexivity.
    + intros h. unfold attach_body.
      change (requestBody (destructure (JObj (remove_field "body" fields))))
        with (obj_get (remove_field "body" fields) "body").
      rewrite obj_get_remove_body. reflexivity.
  - intros url' opts Hin. destruct (fo_body opts) eqn:Eb; [| reflexivity].
    exfalso. destruct (Hi url' opts Hin ltac:(rewrite Eb; discriminate)) as [Ht Hv].
    apply is_body_verb_spec in Hv. rewrite Ht, Hv in Hc'. discriminate Hc'.
Qed.

Lemma body_only_for_body_verbs_witness :
  truthy (requestBody (destructure (JObj get_with_body_fields))) = true /\
  POST w_ok EJson (Body (JObj get_with_body_fields)) =
  POST w_ok EJson (Body (JObj (remove_field "body" get_with_body_fields))).
Proof.
  split; [reflexivity |].
  apply (proj2 (body_only_for_body_verbs w_ok EJson get_with_body_fields)).
  right. intros [H | [H | H]]; discriminate H.
Defined.

Lemma dataType_mismatch_rejected_witness :
  POST w_ok EJson (Body (JObj mismatch_fields)) =
  (errorResponse (dataType_message EJson "xml") 400 JNull, []).
Proof.
  apply (dataType_mismatch_rejected w_ok EJson mismatch_fields (JStr "xml") "xml");
    reflexivity.
Defined.

Lemma validation_precedence_witness :
  first_violation ERdf req_auth_no_credentials = Some VAuthObject /\
  POST w_ok ERdf req_auth_no_credentials =
  (errorResponse "Invalid 'authentication' object." 400 JNull, []).
Proof.
  split; [reflexivity |].
  apply (validation_precedence w_ok ERdf req_auth_no_credentials VAuthObject
           "Invalid 'authentication' object.").
  - discriminate.
  - intros _; split; reflexivity.
  - reflexivity.
  - reflexivity.
Defined.

Lemma upstream_non_success_witness :
  fst (POST (test_world 403 None "denied" true QEnd) EJson
         (Body (JObj [("apiUrl", url); ("dataType", JStr "json")]))) =
  Respond 403 (JObj [("success", JBool false);
                     ("error", JStr "Authentication failed with external API.");
                     ("details", JObj [("originalStatus", JNum "403");
                                       ("originalStatusText", JStr "Status");
                                       ("originalBody", JStr "denied")])]).
Proof.
  apply (upstream_non_success (test_world 403 None "denied" true QEnd) EJson
           (Body (JObj [("apiUrl", url); ("dataType", JStr "json")]))
           (Some url) plain_get_options (test_upstream 403 None "denied")).
  - simpl; left; reflexivity.
  - reflexivity.
  - reflexivity.
Defined.

(** ** Further properties of the handlers *)

(** *** [Buffer.from(s).toString("base64")] *)












Lemma length_bytes_of s : length (bytes_of s) = String.length s.
Proof. induction s as [| c s IH]; simpl; [reflexivity | rewrite IH; reflexivity]. Qed.

(** X: the encoding of [n] bytes is [4 * ceil(n / 3)] characters long
    (padding included). *)
Theorem base64_length s : String.length (base64 s) = 4 * ((String.length s + 2) / 3).
Proof.
  unfold base64. rewrite <- (length_bytes_of s). generalize (bytes_of s) as l. intros l.
  remember (length l) as n eqn:En. revert l En.
  induction n as [n IH] using lt_wf_ind. intros l En.
  destruct l as [| b1 [| b2 [| b3 rest]]]; subst n; [reflexivity | reflexivity | reflexivity |].
  cbn [b64_bytes String.length length].
  rewrite (IH (length rest)) by (simpl; lia || reflexivity).
  replace (S (S (S (length rest))) + 2) with (1 * 3 + (length rest + 2)) by lia.
  rewrite Nat.div_add_l by lia. lia.
Qed.

(** *** Where and how the outbound call is made *)

Lemma strict_eq_str_true v lit : strict_eq_str v lit = true -> v = Some (JStr lit).
Proof.
  destruct v as [[| | | s | |] |]; simpl; intros H; try discriminate H.
  apply String.eqb_eq in H. subst. reflexivity.
Qed.

Lemma validate_fields_ok w e env :
  snd (validate_fields w e env) = inr tt ->
  truthy (apiUrl env) = true /\ dataType env = Some (JStr (entry_name e)) /\
  (e = ERdf -> rdf_parser_loaded w = true /\ arrayify_loaded w = true).
Proof.
  unfold validate_fields. intros H.
  destruct (truthy (apiUrl env)) eqn:E1; simpl in H; [| discriminate H].
  destruct (truthy (dataType env)) eqn:E2; simpl in H; [| discriminate H].
  destruct (strict_eq_str (dataType env) (entry_name e)) eqn:E3; simpl in H;
    [| destruct (tmpl (dataType env)); discriminate H].
  split; [reflexivity | split; [apply strict_eq_str_true, E3 |]].
  intros ->. destruct (rdf_parser_loaded w), (arrayify_loaded w); try discriminate H.
  split; reflexivity.
Qed.

Lemma build_headers_ok w e env hdrs :
  snd (build_headers w e env) = inr hdrs ->
  snd (validate_fields w e env) = inr tt /\
  snd (authenticate e (authentication env) (spread_into default_headers (customHeaders env))) = inr hdrs.
Proof.
  unfold build_headers. intros H.
  apply bind_snd_inr in H as [[] [H1 H2]]; [| apply validate_fields_silent].
  split; assumption.
Qed.

(** X: an outbound call is made only for an inbound JSON object, to its
    [apiUrl] (which is truthy), for a [dataType] equal to the entry
    point's format, with the inbound [method], ["GET"] when absent. *)
Theorem outbound_call_target w e req url opts :
  In (EvFetch url opts) (snd (POST w e req)) ->
  exists rd, req = Body rd /\ url = get (Some rd) "apiUrl" /\ truthy url = true /\
    get (Some rd) "dataType" = Some (JStr (entry_name e)) /\
    fo_method opts = default (get (Some rd) "method") (JStr "GET").
Proof.
  intros Hin.
  destruct (POST_fetch_inv w e req url opts Hin) as [env [Hp _]].
  destruct (prepare_inr w e req url opts env Hp) as [rd [-> [-> [-> [Hm [Hh _]]]]]].
  destruct (build_headers_ok w e _ _ Hh) as [Hv _].
  destruct (validate_fields_ok w e _ Hv) as [Ha [Hd _]].
  exists rd. repeat split; assumption.
Qed.

(** X: a handler run makes at most one outbound call, and makes it before
    any other observable effect. *)
Theorem single_outbound_call w e req url opts :
  In (EvFetch url opts) (snd (POST w e req)) ->
  exists rest, snd (POST w e req) = EvFetch url opts :: rest /\
    forall url' opts', ~ In (EvFetch url' opts') rest.
Proof.
  intros Hin.
  destruct (POST_fetch_inv w e req url opts Hin) as [env [_ HP]].
  rewrite HP. eexists; split; [reflexivity |].
  intros url' opts'. apply outcome_no_fetch.
Qed.

(** *** What follows the outbound call *)

Lemma outcome_success w e env res d :
  fst (run (outcome w e env res)) = successResponse d ->
  exists u t, res = Received u /\ ok u = true /\ u_text u = inl t /\
    match e with
    | EJson => response_json w t = inl d
    | EXml => xml_validate w t = None /\ xml_parse w (xmlParserOptions env) t = inl d
    | ERdf =>
        let ct := rdf_content_type (rdfOptions env) (u_content_type u) in
        let base := get (rdfOptions env) "baseIRI" in
        stream_error (rdf_parse w ct base t) = None /\ d = JArr (stream_quads (rdf_parse w ct base t))
    end.
Proof.
  unfold outcome. destruct res as [m | u]; [simpl; discriminate |].
  destruct (ok u) eqn:Ok; simpl.
  2: { unfold upstream_failure. destruct (_ || _); discriminate. }
  unfold parse_stage. intros H. exists u.
  destruct e; destruct (u_text u) as [t | m] eqn:Et; simpl in H; try discriminate H;
    exists t; (split; [reflexivity | split; [exact Ok | split; [reflexivity |]]]).
  - destruct (response_json w t) as [v | m]; simpl in H; [| discriminate H].
    injection H as ->. reflexivity.
  - destruct (xml_validate w t); simpl in H; [discriminate H |].
    destruct (xml_parse w (xmlParserOptions env) t) as [v | m]; simpl in H; [| discriminate H].
    injection H as ->. split; reflexivity.
  - cbv zeta. rewrite arrayify_stream in H.
    destruct (rdf_content_type (rdfOptions env) (u_content_type u)); simpl in H;
      destruct (stream_error _) as [[m st] |]; simpl in H; try discriminate H;
      (unfold successResponse in H; injection H as ->; split; reflexivity).
Qed.

(** X: a handler answers success only after an outbound call that
    completed with a 2xx status and whose body was read as text [t];
    the data it returns is the parse of [t]: [response.json()] for json,
    the [XMLParser] result with the caller's options after a successful
    validation for xml, all the quads of a stream that ended without
    error for rdf. *)
Theorem success_requires_upstream w e req d :
  fst (POST w e req) = successResponse d ->
  exists rd url opts u t rest,
    req = Body rd /\ snd (POST w e req) = EvFetch url opts :: rest /\
    fetch w url opts = Received u /\ ok u = true /\ u_text u = inl t /\
    let env := destructure rd in
    match e with
    | EJson => response_json w t = inl d
    | EXml => xml_validate w t = None /\ xml_parse w (xmlParserOptions env) t = inl d
    | ERdf =>
        let ct := rdf_content_type (rdfOptions env) (u_content_type u) in
        let base := get (rdfOptions env) "baseIRI" in
        stream_error (rdf_parse w ct base t) = None /\ d = JArr (stream_quads (rdf_parse w ct base t))
    end.
Proof.
  intros H.
  destruct (POST_shape w e req) as [[r [Hp HP]] | [url [opts [env [Hp HP]]]]];
    rewrite HP in H |- *; simpl in H.
  - exfalso; eapply prepare_stop; [exact Hp | exact H].
  - destruct (prepare_inr w e req url opts env Hp) as [rd [-> [-> _]]].
    destruct (outcome_success w e _ _ d H) as [u [t [Hf [Ho [Ht Hx]]]]].
    exists rd, url, opts, u, t, (snd (run (outcome w e (destructure rd) (fetch w url opts)))).
    repeat split; assumption.
Qed.


(** X: when the upstream body [t] was read but does not parse, the json
    entry point answers 422 with the message of [response.json()]'s
    error, and the xml entry point, after a successful validation, 422
    with the message of [XMLParser]'s error. *)
Theorem parse_errors w e rd url opts u t m :
  In (EvFetch url opts) (snd (POST w e (Body rd))) ->
  fetch w url opts = Received u -> ok u = true -> u_text u = inl t ->
  (e = EJson -> response_json w t = inr m ->
     POST w e (Body rd) =
     (errorResponse "Failed to parse JSON response from external API." 422 (JStr m),
      [EvFetch url opts])) /\
  (e = EXml -> xml_validate w t = None ->
     xml_parse w (xmlParserOptions (destructure rd)) t = inr m ->
     POST w e (Body rd) =
     (errorResponse "Failed to parse XML response from external API." 422 (JStr m),
      [EvFetch url opts; EvXmlParse (xmlParserOptions (destructure rd)) t])).
Proof.
  intros Hin Hf Ho Ht.
  destruct (POST_fetch_inv w e (Body rd) url opts Hin) as [env [Hp HP]].
  destruct (prepare_inr w e _ _ _ _ Hp) as [rd' [Hr [Henv _]]].
  injection Hr as <-. rewrite <- Henv, HP, Hf. unfold outcome. rewrite Ho. simpl.
  unfold parse_stage. rewrite Ht. split.
  - intros -> Hj. rewrite Hj. reflexivity.
  - intros -> Hv Hx. rewrite Hv. simpl. rewrite Hx. reflexivity.
Qed.

Lemma outcome_parse_events w e env res :
  (forall o t, In (EvXmlParse o t) (snd (run (outcome w e env res))) ->
     e = EXml /\ exists u, res = Received u /\ ok u = true /\ u_text u = inl t /\
       xml_validate w t = None) /\
  (forall ct b t, In (EvRdfParse ct b t) (snd (run (outcome w e env res))) ->
     e = ERdf /\ exists u, res = Received u /\ ok u = true /\ u_text u = inl t).
Proof.
  unfold outcome. destruct res as [m | u]; [simpl; split; tauto |].
  destruct (ok u) eqn:Ok; simpl; [| split; tauto].
  unfold parse_stage.
  destruct e; destruct (u_text u) as [t | m] eqn:Et; simpl; try (split; tauto).
  - destruct (response_json w t); simpl; split; tauto.
  - destruct (xml_validate w t) eqn:Ev; simpl; [split; tauto |].
    split; [| intros ct b t' H; destruct (xml_parse w (xmlParserOptions env) t);
                simpl in H; destruct H as [H | H]; [discriminate H | contradiction | discriminate H | contradiction]].
    intros o t' H.
    assert (Ht : t' = t).
    { destruct (xml_parse w (xmlParserOptions env) t); simpl in H;
        (destruct H as [H | H]; [injection H as _ ->; reflexivity | contradiction]). }
    subst t'. split; [reflexivity |]. exists u. repeat split; assumption.
  - split.
    + intros o t' H.
      destruct (rdf_content_type (rdfOptions env) (u_content_type u)); simpl in H;
        destruct (arrayify _) as [q | [m st]]; simpl in H;
        repeat (destruct H as [H | H]; [discriminate H |]); contradiction.
    + intros ct b t' H.
      assert (Ht : t' = t).
      { destruct (rdf_content_type (rdfOptions env) (u_content_type u)); simpl in H;
          destruct (arrayify _) as [q | [m st]]; simpl in H;
          repeat (destruct H as [H | H]; [first [discriminate H | injection H as _ _ ->; reflexivity] |]);
          contradiction. }
      subst t'. split; [reflexivity |]. exists u. repeat split; assumption.
Qed.

(** X: the XML parser runs only on the body of an outbound call that
    completed with a 2xx status, and only after that body passed
    validation; the RDF parser runs only on the body of an outbound call
    that completed with a 2xx status. Each runs only on its own entry
    point. *)
Theorem parsers_run_on_ok_body w e req :
  (forall o t, In (EvXmlParse o t) (snd (POST w e req)) ->
     e = EXml /\ exists url opts u, In (EvFetch url opts) (snd (POST w e req)) /\
       fetch w url opts = Received u /\ ok u = true /\ u_text u = inl t /\ xml_validate w t = None) /\
  (forall ct b t, In (EvRdfParse ct b t) (snd (POST w e req)) ->
     e = ERdf /\ exists url opts u, In (EvFetch url opts) (snd (POST w e req)) /\
       fetch w url opts = Received u /\ ok u = true /\ u_text u = inl t).
Proof.
  destruct (POST_shape w e req) as [[r [Hp HP]] | [url [opts [env [Hp HP]]]]];
    rewrite HP; simpl; [split; tauto |].
  destruct (outcome_parse_events w e env (fetch w url opts)) as [H1 H2]. split.
  - intros o t [H | H]; [discriminate H |].
    destruct (H1 o t H) as [-> [u [Hf Hu]]]. split; [reflexivity |].
    exists url, opts, u. split; [left; reflexivity | split; [exact Hf | exact Hu]].
  - intros ct b t [H | H]; [discriminate H |].
    destruct (H2 ct b t H) as [-> [u [Hf Hu]]]. split; [reflexivity |].
    exists url, opts, u. split; [left; reflexivity | split; [exact Hf | exact Hu]].
Qed.

(** *** The outbound headers *)





(** *** Rejected inbound requests *)

(** X: an inbound JSON value that is not an object (an array, a string,
    a number or a boolean) has no [apiUrl]: it is rejected with 400 and
    no outbound call. *)
Theorem non_object_body_rejected w e rd :
  rd <> JNull -> (forall fields, rd <> JObj fields) ->
  POST w e (Body rd) = (errorResponse "Missing 'apiUrl' in request body." 400 JNull, []).
Proof.
  intros Hn Ho. apply POST_stops_at_headers; [exact Hn |].
  destruct rd as [| b | r | s | l | fs]; [congruence | reflexivity .. |].
  exfalso; apply (Ho fs); reflexivity.
Qed.

(** X: an authentication object whose [type] is a non-empty string other
    than "apiKey", "bearerToken" and "basicAuth", with truthy
    [credentials], is rejected with 400 naming the type, and no outbound
    call is made (once the request passed the field checks). *)
Theorem unsupported_auth_type w e fields auth t :
  truthy (obj_get fields "apiUrl") = true ->
  obj_get fields "dataType" = Some (JStr (entry_name e)) ->
  (e = ERdf -> rdf_parser_loaded w = true /\ arrayify_loaded w = true) ->
  obj_get fields "authentication" = Some auth ->
  get (Some auth) "type" = Some (JStr t) -> t <> EmptyString ->
  truthy (get (Some auth) "credentials") = true ->
  t <> "apiKey" -> t <> "bearerToken" -> t <> "basicAuth" ->
  POST w e (Body (JObj fields)) =
  (errorResponse ("Unsupported authentication type: '" ++ t ++ "'.") 400 JNull, []).
Proof.
  intros Ha Hd Hl Hau Ht Hne Hc H1 H2 H3.
  apply POST_stops_at_headers; [discriminate |].
  assert (Hv : validate_fields w e (destructure (JObj fields)) = ([], inr tt)).
  { unfold validate_fields.
    change (apiUrl (destructure (JObj fields))) with (obj_get fields "apiUrl").
    change (dataType (destructure (JObj fields))) with (obj_get fields "dataType").
    rewrite Ha, Hd. simpl.
    rewrite String.eqb_refl. destruct (entry_name e) eqn:En; [destruct e; discriminate En |].
    simpl. destruct e; try reflexivity.
    destruct (Hl eq_refl) as [-> ->]. reflexivity. }
  unfold build_headers. rewrite Hv. cbn [bind].
  change (authentication (destructure (JObj fields))) with (obj_get fields "authentication").
  rewrite Hau. unfold authenticate.
  assert (Hta : truthy (Some auth) = true).
  { destruct auth; try reflexivity; discriminate Ht. }
  rewrite Hta, Ht, Hc. unfold strict_eq_str.
  apply String.eqb_neq in Hne. apply String.eqb_neq in H1.
  apply String.eqb_neq in H2. apply String.eqb_neq in H3.
  simpl. rewrite Hne, H1, H2, H3. reflexivity.
Qed.

(** *** Witnesses of the further properties *)


Lemma outbound_call_target_witness :
  In (EvFetch (Some url) plain_get_options) (snd (POST w_ok EJson req_json_plain)) /\
  exists rd, req_json_plain = Body rd /\ Some url = get (Some rd) "apiUrl" /\
    truthy (Some url) = true /\ get (Some rd) "dataType" = Some (JStr (entry_name EJson)) /\
    fo_method plain_get_options = default (get (Some rd) "method") (JStr "GET").
Proof.
  split; [simpl; left; reflexivity |].
  apply (outbound_call_target w_ok EJson req_json_plain (Some url) plain_get_options).
  simpl; left; reflexivity.
Defined.

Lemma single_outbound_call_witness :
  exists rest, snd (POST w_ok EJson req_json_plain) = EvFetch (Some url) plain_get_options :: rest /\
    forall url' opts', ~ In (EvFetch url' opts') rest.
Proof.
  apply (single_outbound_call w_ok EJson req_json_plain (Some url) plain_get_options).
  simpl; left; reflexivity.
Defined.

Lemma success_requires_upstream_witness :
  fst (POST w_ok EJson req_json_plain) = successResponse (JStr "{}") /\
  exists rd url' opts u t rest,
    req_json_plain = Body rd /\ snd (POST w_ok EJson req_json_plain) = EvFetch url' opts :: rest /\
    fetch w_ok url' opts = Received u /\ ok u = true /\ u_text u = inl t /\
    response_json w_ok t = inl (JStr "{}").
Proof.
  split; [reflexivity |].
  destruct (success_requires_upstream w_ok EJson req_json_plain (JStr "{}") eq_refl)
    as [rd [url' [opts [u [t [rest H]]]]]].
  exists rd, url', opts, u, t, rest. exact H.
Defined.


Lemma parse_errors_witness :
  POST w_parse_fail EXml req_xml_plain =
  (errorResponse "Failed to parse XML response from external API." 422 (JStr "Invalid character"),
   [EvFetch (Some url) plain_get_options; EvXmlParse (Some (JObj [])) "{}"]).
Proof.
  apply (proj2 (parse_errors w_parse_fail EXml (JObj [("apiUrl", url); ("dataType", JStr "xml")])
                  (Some url) plain_get_options (test_upstream 200 None "{}") "{}" "Invalid character"
                  ltac:(simpl; left; reflexivity) eq_refl eq_refl eq_refl));
    reflexivity.
Defined.

Lemma parsers_run_on_ok_body_witness :
  In (EvXmlParse (Some (JObj [])) "{}") (snd (POST w_ok EXml req_xml_plain)) /\
  EXml = EXml /\ exists url' opts u, In (EvFetch url' opts) (snd (POST w_ok EXml req_xml_plain)) /\
    fetch w_ok url' opts = Received u /\ ok u = true /\ u_text u = inl "{}" /\
    xml_validate w_ok "{}" = None.
Proof.
  split; [simpl; right; left; reflexivity |].
  apply (proj1 (parsers_run_on_ok_body w_ok EXml req_xml_plain) (Some (JObj [])) "{}").
  simpl; right; left; reflexivity.
Defined.


Lemma non_object_body_rejected_witness :
  POST w_ok ERdf (Body (JArr [url])) =
  (errorResponse "Missing 'apiUrl' in request body." 400 JNull, []).
Proof.
  apply (non_object_body_rejected w_ok ERdf (JArr [url])); [discriminate | intros fs; discriminate].
Defined.

Lemma unsupported_auth_type_witness :
  POST w_ok EXml (Body (JObj oauth2_fields)) =
  (errorResponse ("Unsupported authentication type: '" ++ "oauth2" ++ "'.") 400 JNull, []).
Proof.
  apply (unsupported_auth_type w_ok EXml oauth2_fields
           (JObj [("type", JStr "oauth2"); ("credentials", JObj [("token", JStr "t")])]) "oauth2");
    try reflexivity; try discriminate.
Defined.

Lemma auth_header_reaches_fetch_witness :
  exists opts,
    In (EvFetch (Some url) opts) (snd (POST w_ok EJson req_bearer)) /\
    own_get "Authorization" (fo_headers opts) = Some (JStr "Bearer abc").
Proof.
  eexists. split; [simpl; left; reflexivity |].
  apply (auth_header_reaches_fetch w_ok EJson
           (JObj [("apiUrl", url); ("dataType", JStr "json");
                  ("headers", JObj [("Authorization", JStr "Basic old")]);
                  ("authentication", bearer_auth)]) bearer_auth (Some url));
    [simpl; left; reflexivity | reflexivity | reflexivity | discriminate].
Defined.
